(** * gitignore: a shallow embedding of [gitignore/gitignore.py]

    The development follows the layout of the script:

    - [Str]: the methods of Python's [str] that the script calls
      ([strip], [lower], [split], [splitlines], [replace], ...), on
      strings whose code points are below 256 (one [ascii] per code
      point);
    - [IO]: the world the script acts on (the text files, the remote
      template service, the keyboard and the console) and a state and
      exception monad over it;
    - [GitignoreGenerator]: [fetch_template], [generate] and
      [read_gitignore];
    - [Cli]: the body of [main] after [parse_args].

    The older single-file script [gitignore.py] has the same
    [fetch_template] and [generate], with other message texts; messages
    are constructors of [IO.Event] here, so the model covers both. *)

From Stdlib Require Import String Ascii List Bool.
From stdpp Require Import base option gmap strings.

Local Open Scope list_scope.

(** ** Python's [str] methods *)

Module Str.

(** [c in s] for a one-character [c]. *)
Fixpoint contains (c : ascii) (s : string) : bool :=
  match s with
  | EmptyString => false
  | String d s' => if Ascii.eqb d c then true else contains c s'
  end.

(** [s.replace(old, new)] for one-character [old] and [new]. *)
Fixpoint replace (old new : ascii) (s : string) : string :=
  match s with
  | EmptyString => EmptyString
  | String d s' =>
      String (if Ascii.eqb d old then new else d) (replace old new s')
  end.

(** Adds [c] in front of the first piece of a list of pieces. *)
Definition push (c : ascii) (ls : list string) : list string :=
  match ls with
  | [] => [String c EmptyString]
  | l :: ls' => String c l :: ls'
  end.

(** [s.split(sep)] for a one-character [sep]: every occurrence cuts,
    empty pieces are kept, and the empty string gives one empty piece. *)
Fixpoint split (sep : ascii) (s : string) : list string :=
  match s with
  | EmptyString => [EmptyString]
  | String d s' =>
      if Ascii.eqb d sep then EmptyString :: split sep s'
      else push d (split sep s')
  end.

(** [str.isspace] on one code point below 256: TAB, LF, VT, FF, CR,
    FS, GS, RS, US, SPACE, NEL (0x85) and NBSP (0xA0). *)
Definition isspace (c : ascii) : bool :=
  match c with
  | "009" | "010" | "011" | "012" | "013"
  | "028" | "029" | "030" | "031" | " "
  | "133" | "160" => true
  | _ => false
  end%char.

(** The line boundaries of [str.splitlines] below 256: LF, VT, FF,
    CR, FS, GS, RS and NEL; CR LF counts as one boundary. *)
Definition islinebreak (c : ascii) : bool :=
  match c with
  | "010" | "011" | "012" | "013"
  | "028" | "029" | "030" | "133" => true
  | _ => false
  end%char.

(** [s.splitlines()]: the pieces between line boundaries, without the
    boundaries and without an empty piece after a final boundary. *)
Fixpoint splitlines (s : string) : list string :=
  match s with
  | EmptyString => []
  | String d s' =>
      if islinebreak d then
        EmptyString ::
          match d, s' with
          | "013"%char, String "010"%char s'' => splitlines s''
          | _, _ => splitlines s'
          end
      else push d (splitlines s')
  end.

(** [s.split()] with no separator: the maximal runs of characters
    that are not white space; [cur] is the run being read. *)
Fixpoint split_ws_from (cur : string) (s : string) : list string :=
  match s with
  | EmptyString =>
      match cur with EmptyString => [] | _ => [cur] end
  | String d s' =>
      if isspace d then
        match cur with
        | EmptyString => split_ws_from EmptyString s'
        | _ => cur :: split_ws_from EmptyString s'
        end
      else split_ws_from (cur +:+ String d EmptyString) s'
  end.

Definition split_ws (s : string) : list string :=
  split_ws_from EmptyString s.

Fixpoint lstrip (s : string) : string :=
  match s with
  | EmptyString => EmptyString
  | String d s' => if isspace d then lstrip s' else s
  end.

Fixpoint rstrip (s : string) : string :=
  match s with
  | EmptyString => EmptyString
  | String d s' =>
      match rstrip s' with
      | EmptyString =>
          if isspace d then EmptyString else String d EmptyString
      | r => String d r
      end
  end.

(** [s.strip()]: white space removed at both ends of the string. *)
Definition strip (s : string) : string := rstrip (lstrip s).

(** [str.lower] on one code point below 256: A..Z and the Latin-1
    capitals 0xC0..0xDE (without the multiplication sign 0xD7) move up
    by 32. *)
Definition lower_char (c : ascii) : ascii :=
  let n := nat_of_ascii c in
  if (Nat.leb 65 n && Nat.leb n 90)
     || (Nat.leb 192 n && Nat.leb n 222 && negb (Nat.eqb n 215))
  then ascii_of_nat (n + 32) else c.

Fixpoint lower (s : string) : string :=
  match s with
  | EmptyString => EmptyString
  | String d s' => String (lower_char d) (lower s')
  end.

(** [s.startswith(c)] and [s.endswith(c)] for a one-character [c]. *)
Definition startswith (c : ascii) (s : string) : bool :=
  match s with
  | EmptyString => false
  | String d _ => Ascii.eqb d c
  end.

Fixpoint endswith (c : ascii) (s : string) : bool :=
  match s with
  | EmptyString => false
  | String d EmptyString => Ascii.eqb d c
  | String _ s' => endswith c s'
  end.

Fixpoint drop_last (s : string) : string :=
  match s with
  | EmptyString => EmptyString
  | String _ EmptyString => EmptyString
  | String d s' => String d (drop_last s')
  end.

(** The slice [s[1:-1]]. *)
Definition slice_1_m1 (s : string) : string :=
  match s with
  | EmptyString => EmptyString
  | String _ s' => drop_last s'
  end.

(** [sep.join(l)]. *)
Fixpoint join (sep : string) (l : list string) : string :=
  match l with
  | [] => EmptyString
  | [x] => x
  | x :: l' => x +:+ sep +:+ join sep l'
  end.

(** Truth value of a string: only the empty string is false. *)
Definition truthy (s : string) : bool :=
  match s with EmptyString => false | _ => true end.

Fixpoint last_char (s : string) : option ascii :=
  match s with
  | EmptyString => None
  | String d EmptyString => Some d
  | String _ s' => last_char s'
  end.

(** The string ends with a white space character. *)
Definition trailing_space (s : string) : bool :=
  match last_char s with
  | Some c => isspace c
  | None => false
  end.

(** The one-character string ["\n"]. *)
Definition nl : string := String "010"%char EmptyString.

End Str.


(** ** The world of the script *)

Module IO.

(** What the script shows on the console, one constructor per call of
    [console.print] (and one for the prompt that [input] shows). The
    transient progress spinner leaves nothing on the console. *)
Inductive Event {Path : Type} : Type :=
| FetchFailed (e : string)
| Prompt (p : Path)
| Canceled
| Stored (p : Path)
| WriteFailed (e : string)
| NotFound (p : Path)
| Content (text : string)
| ReadFailed (e : string)
| Starting.
Arguments Event : clear implicits.

(** The outcome of a Python expression: a value, or an exception
    (an instance of [Exception]) with its message. *)
Inductive result (A : Type) : Type :=
| Ok (a : A)
| Raise (e : string).
Arguments Ok {A} a.
Arguments Raise {A} e.

Section World.
Context {Path : Type} `{Countable Path}.

(** - [fs]: the text files, by path;
    - [write_fault], [read_fault]: the exception, if any, that
      opening a path for writing or reading raises;
    - [http]: the decoded body the service returns for a URL, or the
      exception of [urlopen], [read] or [decode];
    - [keyboard], [typed]: the lines the user types, and how many of
      them [input] has consumed;
    - [console]: what has been shown, oldest first. *)
Record World : Type := mkWorld {
  fs : gmap Path string;
  write_fault : Path -> option string;
  read_fault : Path -> option string;
  http : string -> result string;
  keyboard : nat -> string;
  typed : nat;
  console : list (Event Path)
}.

Definition set_fs (f : gmap Path string) (w : World) : World :=
  mkWorld f (write_fault w) (read_fault w) (http w)
          (keyboard w) (typed w) (console w).

Definition set_typed (n : nat) (w : World) : World :=
  mkWorld (fs w) (write_fault w) (read_fault w) (http w)
          (keyboard w) n (console w).

Definition set_console (c : list (Event Path)) (w : World) : World :=
  mkWorld (fs w) (write_fault w) (read_fault w) (http w)
          (keyboard w) (typed w) c.

(** State over [World], with exceptions. *)
Definition M (A : Type) : Type := World -> result A * World.

Definition ret {A} (a : A) : M A := fun w => (Ok a, w).

Definition bind {A B} (m : M A) (k : A -> M B) : M B :=
  fun w =>
    match m w with
    | (Ok a, w') => k a w'
    | (Raise e, w') => (Raise e, w')
    end.

(** [try: m except Exception as e: h e]. *)
Definition try_except {A} (m : M A) (h : string -> M A) : M A :=
  fun w =>
    match m w with
    | (Ok a, w') => (Ok a, w')
    | (Raise e, w') => h e w'
    end.

(** [console.print(...)]. *)
Definition print (ev : Event Path) : M unit :=
  fun w => (Ok tt, set_console (console w ++ [ev]) w).

(** [input(prompt)]: shows the prompt and returns the next line. *)
Definition input (prompt : Event Path) : M string :=
  fun w =>
    (Ok (keyboard w (typed w)),
     set_typed (S (typed w)) (set_console (console w ++ [prompt]) w)).

(** [p.exists()]. *)
Definition exists_ (p : Path) : M bool :=
  fun w => (Ok (match fs w !! p with Some _ => true | None => false end), w).

(** [p.write_text(text, encoding="utf-8")]: the file is created or
    replaced. *)
Definition write_text (p : Path) (text : string) : M unit :=
  fun w =>
    match write_fault w p with
    | Some e => (Raise e, w)
    | None => (Ok tt, set_fs (<[p := text]> (fs w)) w)
    end.

(** [with p.open("a", encoding="utf-8") as f: f.write(text)]: the
    text goes after what the file holds (an absent file is
    created). *)
Definition append_text (p : Path) (text : string) : M unit :=
  fun w =>
    match write_fault w p with
    | Some e => (Raise e, w)
    | None =>
        (Ok tt, set_fs (<[p := default EmptyString (fs w !! p) +:+ text]> (fs w)) w)
    end.

(** [p.read_text(encoding="utf-8")]. *)
Definition read_text (p : Path) : M string :=
  fun w =>
    match read_fault w p with
    | Some e => (Raise e, w)
    | None =>
        match fs w !! p with
        | Some text => (Ok text, w)
        | None => (Raise "FileNotFoundError", w)
        end
    end.

(** [urlopen(Request(url, headers=...))], [res.read().decode()]. *)
Definition urlopen_read (url : string) : M string :=
  fun w => (http w url, w).

(** The value and the world that a run leaves. *)
Definition value {A} (m : M A) (w : World) : result A := fst (m w).
Definition exec {A} (m : M A) (w : World) : World := snd (m w).

End World.

Arguments World Path {_ _}.
Arguments M Path {_ _} A.

End IO.

Declare Scope io_scope.
Delimit Scope io_scope with io.
Notation "'let*' x := m 'in' k" := (IO.bind m (fun x => k))
  (at level 10, x name, m at level 100, k at level 200) : io_scope.
Notation "m ;; k" := (IO.bind m (fun _ => k))
  (at level 100, k at level 200, right associativity) : io_scope.

(** ** class GitignoreGenerator *)

Module GitignoreGenerator.

Definition DEFAULT_ENTRIES : list string :=
  ["*.pyc"; "*.bak"; "*.zip"; "*.rar"; "*.7z"; "*.mp3"; "*.wav";
   "*.sublime-workspace"; ".hg/"; "build/"; "*.hgignore"; "*.hgtags";
   "*dist/"; "*.egg-info/"; "traceback.log"; "__pycache__/"; "*.log"].

(** The address that [fetch_template] asks. *)
Definition url (templates : list string) : string :=
  "https://www.toptal.com/developers/gitignore/api/"
    +:+ Str.join "," templates.

(** Truth value of an [Optional[List[str]]]: [None] and the empty
    list are false. *)
Definition truthy (l : option (list string)) : bool :=
  match l with
  | Some (_ :: _) => true
  | _ => false
  end.

Section Methods.
Context {Path : Type} `{Countable Path}.
(** [path / name] of [pathlib]. *)
Variable joinpath : Path -> string -> Path.

Local Open Scope io_scope.

Definition fetch_template (templates : list string)
  : IO.M Path (list string) :=
  IO.try_except
    (let* content := IO.urlopen_read (url templates) in
     IO.ret (Str.splitlines (Str.strip content)))
    (fun e => IO.print (IO.FetchFailed e) ;; IO.ret []).

(** [if templates: entries += cls.fetch_template(templates)]: the
    lines that go first in [entries]. *)
Definition fetch_phase (templates : option (list string))
  : IO.M Path (list string) :=
  if truthy templates
  then fetch_template (default [] templates)
  else IO.ret [].

(** The list [entries] once [generate] has filled it. *)
Definition assemble (fetched : list string)
    (extra_entries : option (list string)) : list string :=
  let entries := [] ++ fetched in
  let entries := entries ++ DEFAULT_ENTRIES in
  if truthy extra_entries
  then entries ++ default [] extra_entries
  else entries.

(** The overwrite question of [generate]; [false] stands for the
    early [return]. *)
Definition confirm (gitignore_path : Path) (append force : bool)
  : IO.M Path bool :=
  let* there := IO.exists_ gitignore_path in
  if there && negb force && negb append
  then
    let* answer := IO.input (IO.Prompt gitignore_path) in
    let answer := Str.lower (Str.strip answer) in
    if negb (String.eqb answer "y")
    then IO.print IO.Canceled ;; IO.ret false
    else IO.ret true
  else IO.ret true.

(** The text that [generate] builds from its entries. *)
Definition content_of (entries : list string) : string :=
  Str.join Str.nl entries +:+ Str.nl.

(** The [try] block of [generate]. *)
Definition write_entries (gitignore_path : Path) (append : bool)
    (entries : list string) : IO.M Path unit :=
  let content := content_of entries in
  let* there := IO.exists_ gitignore_path in
  (if append && there
   then IO.append_text gitignore_path (Str.nl +:+ content)
   else IO.write_text gitignore_path content) ;;
  IO.print (IO.Stored gitignore_path).

Definition generate (path : Path) (extra_entries : option (list string))
    (append force : bool) (templates : option (list string))
  : IO.M Path unit :=
  let* fetched := fetch_phase templates in
  let entries := assemble fetched extra_entries in
  let gitignore_path := joinpath path ".gitignore" in
  let* proceed := confirm gitignore_path append force in
  if proceed
  then
    IO.try_except
      (write_entries gitignore_path append entries)
      (fun e => IO.print (IO.WriteFailed e))
  else IO.ret tt.

Definition read_gitignore (path : Path) : IO.M Path unit :=
  let gitignore_path := joinpath path ".gitignore" in
  let* there := IO.exists_ gitignore_path in
  if negb there
  then IO.print (IO.NotFound gitignore_path)
  else
    IO.try_except
      (let* content := IO.read_text gitignore_path in
       IO.print (IO.Content content))
      (fun e => IO.print (IO.ReadFailed e)).

End Methods.

End GitignoreGenerator.

(** ** main *)

Module Cli.

(** The rules that [main] tries, in order, on the positional argument
    (after its backslashes have become slashes); the result is what
    [main] adds at the end of [args.data]. *)
Definition sniff (entries : string) : list string :=
  if Str.contains "," entries then Str.split "," entries
  else if Str.contains "010" entries then Str.splitlines entries
  else if Str.contains ";" entries then Str.split ";" entries
  else if Str.contains ":" entries then Str.split ":" entries
  else if Str.contains "|" entries then Str.split "|" entries
  else if Str.contains " " entries then Str.split_ws entries
  else if Str.startswith "[" entries && Str.endswith "]" entries
       then Str.split "," (Str.slice_1_m1 entries)
  else if Str.startswith "{" entries && Str.endswith "}" entries
       then Str.split "," (Str.slice_1_m1 entries)
  else if Str.startswith "034" entries && Str.endswith "034" entries
       then [Str.slice_1_m1 entries]
  else if Str.startswith "'" entries && Str.endswith "'" entries
       then [Str.slice_1_m1 entries]
  else if Str.startswith "`" entries && Str.endswith "`" entries
       then [Str.slice_1_m1 entries]
  else if Str.truthy (Str.strip entries) then [Str.strip entries]
  else [entries].

Section Main.
Context {Path : Type} `{Countable Path}.
Variable joinpath : Path -> string -> Path.

(** The namespace that [parse_args] returns. *)
Record Args : Type := mkArgs {
  entries : option string;
  path : Path;
  data : list string;
  template : option (list string);
  append : bool;
  force : bool;
  read : bool
}.

(** The block [if args.entries: ...] of [main]. *)
Definition normalize (args : Args) : Args :=
  match entries args with
  | Some e =>
      if Str.truthy e
      then
        let e' := Str.replace "\" "/" e in
        mkArgs (Some e') (path args) (data args ++ sniff e')
               (template args) true (force args) (read args)
      else args
  | None => args
  end.

Local Open Scope io_scope.

(** [main] from [parse_args] on. *)
Definition main (args : Args) : IO.M Path unit :=
  let args := normalize args in
  if read args
  then GitignoreGenerator.read_gitignore joinpath (path args)
  else
    IO.print IO.Starting ;;
    GitignoreGenerator.generate joinpath (path args) (Some (data args))
      (append args) (force args) (template args).

End Main.

Arguments Args Path : clear implicits.

End Cli.

(** ** The entries normalizer as a list of rules

    A second definition of what [main] does with its positional
    argument, written from the wording of the specification (an ordered
    list of rules, each a test on the whole string and a way to cut it;
    the first rule whose test holds is the one applied). It is compared
    with [Cli.sniff] below. *)

Module Normalizer.

Inductive Rule : Type :=
| Comma | Newline | Semicolon | Colon | Pipe | Space
| Brackets | Braces
| DoubleQuoted | SingleQuoted | Backquoted
| Trimmed | Original.

(** The rules, most urgent first. *)
Definition priority : list Rule :=
  [Comma; Newline; Semicolon; Colon; Pipe; Space; Brackets; Braces;
   DoubleQuoted; SingleQuoted; Backquoted; Trimmed; Original].

Definition wrapped (l r : ascii) (s : string) : bool :=
  Str.startswith l s && Str.endswith r s.

Definition applies (r : Rule) (s : string) : bool :=
  match r with
  | Comma => Str.contains "," s
  | Newline => Str.contains "010" s
  | Semicolon => Str.contains ";" s
  | Colon => Str.contains ":" s
  | Pipe => Str.contains "|" s
  | Space => Str.contains " " s
  | Brackets => wrapped "[" "]" s
  | Braces => wrapped "{" "}" s
  | DoubleQuoted => wrapped "034" "034" s
  | SingleQuoted => wrapped "'" "'" s
  | Backquoted => wrapped "`" "`" s
  | Trimmed => Str.truthy (Str.strip s)
  | Original => true
  end.

Definition pieces (r : Rule) (s : string) : list string :=
  match r with
  | Comma => Str.split "," s
  | Newline => Str.splitlines s
  | Semicolon => Str.split ";" s
  | Colon => Str.split ":" s
  | Pipe => Str.split "|" s
  | Space => Str.split_ws s
  | Brackets | Braces => Str.split "," (Str.slice_1_m1 s)
  | DoubleQuoted | SingleQuoted | Backquoted => [Str.slice_1_m1 s]
  | Trimmed => [Str.strip s]
  | Original => [s]
  end.

(** First match wins. *)
Definition chosen (s : string) : option Rule :=
  List.find (fun r => applies r s) priority.

Definition normalizer (entries : string) : list string :=
  let s := Str.replace "\" "/" entries in
  match chosen s with
  | Some r => pieces r s
  | None => []
  end.

(** A comma-separated list inside one pair of brackets or braces. *)
Definition bracketed_list (s : string) : bool :=
  Str.contains "," s && (wrapped "[" "]" s || wrapped "{" "}" s).

End Normalizer.

(** ** Vocabulary of the statements *)

Module Obs.

(** The answer that lets [generate] overwrite. *)
Definition affirmative (answer : string) : bool :=
  String.eqb (Str.lower (Str.strip answer)) "y".

(** What the file holds after [text] has been stored: after the prior
    content and one line feed when appending to an existing file,
    alone otherwise. *)
Definition file_after (prior : option string) (append : bool)
    (text : string) : string :=
  match prior with
  | Some c => if append then c +:+ Str.nl +:+ text else text
  | None => text
  end.

(** The last line of the text is empty: the text ends with two line
    feeds. *)
Definition ends_with_blank_line (text : string) : Prop :=
  exists before, text = before +:+ Str.nl +:+ Str.nl.

Section World.
Context {Path : Type} `{Countable Path}.

(** The lines that the fetch of [generate] contributes in [w]. *)
Definition fetched (templates : option (list string))
    (w : IO.World Path) : list string :=
  match IO.value (GitignoreGenerator.fetch_phase templates) w with
  | IO.Ok lines => lines
  | IO.Raise _ => []
  end.

(** The world after the fetch of [generate]. *)
Definition after_fetch (templates : option (list string))
    (w : IO.World Path) : IO.World Path :=
  IO.exec (GitignoreGenerator.fetch_phase templates) w.

(** [generate] has to ask before it writes. *)
Definition asks (p : Path) (append force : bool) (w : IO.World Path)
  : bool :=
  match IO.fs w !! p with
  | Some _ => negb force && negb append
  | None => false
  end.

(** [generate] gets as far as its write: it does not ask, or the
    next line typed is an affirmative answer. *)
Definition proceeds (p : Path) (append force : bool) (w : IO.World Path)
  : bool :=
  negb (asks p append force w)
  || affirmative (IO.keyboard w (IO.typed w)).

End World.

End Obs.

(** ** A concrete world, for examples *)

Module Demo.

(** Joining a relative directory and a file name with a slash. *)
Definition joinpath (p name : string) : string := p +:+ "/" +:+ name.

Definition no_fault : string -> option string := fun _ => None.

Definition offline : string -> IO.result string :=
  fun _ => IO.Raise "URLError".

Definition serving (body : string) : string -> IO.result string :=
  fun _ => IO.Ok body.

(** A world whose only file, if any, is [proj/.gitignore]; the user
    types [answer] whatever the question. *)
Definition world (file : option string) (http : string -> IO.result string)
    (answer : string) : IO.World string :=
  IO.mkWorld
    (match file with
     | Some text => {[ "proj/.gitignore" := text ]}
     | None => ∅
     end)
    no_fault no_fault http (fun _ => answer) 0 [].

Definition old : string := "old" +:+ Str.nl.

(** The three characters of [a] between double quotes. *)
Definition quoted_a : string :=
  String "034" (String "a" (String "034" EmptyString)).

(** A lone double quote. *)
Definition lone_quote : string := String "034" EmptyString.

(** A response of two lines, the first with a space at its end. *)
Definition body : string := "a " +:+ Str.nl +:+ "b" +:+ Str.nl.

Definition target : string := "proj/.gitignore".

(** The file [proj/.gitignore] exists and the service is down. *)
Definition existing_offline : IO.World string :=
  world (Some old) offline "n".

(** The file [proj/.gitignore] exists, the service answers [body] and
    the user types [Y] with blanks around it. *)
Definition existing_online : IO.World string :=
  world (Some old) (serving body) " Y ".

(** The text of the default entries alone. *)
Definition defaults_text : string :=
  GitignoreGenerator.content_of GitignoreGenerator.DEFAULT_ENTRIES.

Definition args (e : option string) : Cli.Args string :=
  Cli.mkArgs e "proj" [] None false false false.

End Demo.

(** ** More vocabulary: what a string is made of *)

Module Chars.

(** Every character of the string is white space. *)
Fixpoint all_space (s : string) : bool :=
  match s with
  | EmptyString => true
  | String c s' => Str.isspace c && all_space s'
  end.

(** Some character of the string is a line boundary. *)
Fixpoint has_linebreak (s : string) : bool :=
  match s with
  | EmptyString => false
  | String c s' => Str.islinebreak c || has_linebreak s'
  end.

End Chars.

(** ** More concrete worlds, for examples *)

Module Scenario.

(** The target exists and cannot be opened for writing; the user would
    say yes. *)
Definition locked : IO.World string :=
  IO.mkWorld {[ Demo.target := Demo.old ]}
    (fun _ => Some "PermissionError") Demo.no_fault Demo.offline
    (fun _ => "y") 0 [].

(** The target exists and cannot be read. *)
Definition unreadable : IO.World string :=
  IO.mkWorld {[ Demo.target := Demo.old ]}
    Demo.no_fault (fun _ => Some "UnicodeDecodeError") Demo.offline
    (fun _ => "n") 0 [].

(** The target and one more file. *)
Definition two_files : IO.World string :=
  IO.mkWorld (<[ "proj/notes.txt" := "keep" ]> {[ Demo.target := Demo.old ]})
    Demo.no_fault Demo.no_fault Demo.offline (fun _ => "n") 0 [].


(** A response of blanks. *)
Definition blank_body : string := "  " +:+ Str.nl.

Definition blank_service : IO.World string :=
  Demo.world None (Demo.serving blank_body) "n".

(** Every option at once, the read option among them. *)
Definition read_args : Cli.Args string :=
  Cli.mkArgs (Some "*.aux") "proj" ["*.bbl"] (Some ["python"])
    true true true.

(** The letter [a] and a line feed. *)
Definition a_newline : string := "a" +:+ Str.nl.

(** One entry given with the data option, and a positional argument. *)
Definition data_args (e : string) : Cli.Args string :=
  Cli.mkArgs (Some e) "proj" ["*.bbl"] None false false false.

End Scenario.

(** ** Python strings: examples and lemmas *)

Example split_abc : Str.split "," "a,b,c" = ["a"; "b"; "c"].
Proof. reflexivity. Qed.
Example split_empty : Str.split "," "" = [""].
Proof. reflexivity. Qed.
Example splitlines_crlf : Str.splitlines ("a" +:+ String "013" (String "010" "b"))
                          = ["a"; "b"].
Proof. reflexivity. Qed.
Example splitlines_final : Str.splitlines (String "a" (String "010" "")) = ["a"].
Proof. reflexivity. Qed.
Example split_ws_runs : Str.split_ws "  a  b c " = ["a"; "b"; "c"].
Proof. reflexivity. Qed.
Example strip_both : Str.strip "  Y  " = "Y".
Proof. reflexivity. Qed.
Example lower_Y : Str.lower "Yes" = "yes".
Proof. reflexivity. Qed.
Example slice_one : Str.slice_1_m1 "x" = "".
Proof. reflexivity. Qed.
Example slice_mid : Str.slice_1_m1 "[ab]" = "ab".
Proof. reflexivity. Qed.
Example join_three : Str.join "," ["a"; "b"; "c"] = "a,b,c".
Proof. reflexivity. Qed.

Section StrLemmas.

(** Induction that steps over one or two characters, as [splitlines]
    does at a CR LF. *)
Lemma string_pair_ind (P : string -> Prop) :
  P EmptyString ->
  (forall c, P (String c EmptyString)) ->
  (forall c d s, P s -> P (String d s) -> P (String c (String d s))) ->
  forall s, P s.
Proof.
  intros H0 H1 H2 s.
  assert (both : P s /\ forall c, P (String c s)).
  { induction s as [|d s [IHs IHcs]]; split; auto. }
  exact (proj1 both).
Qed.

Lemma linebreak_is_space c : Str.islinebreak c = true -> Str.isspace c = true.
Proof.
  destruct c as [[] [] [] [] [] [] [] []]; vm_compute; congruence.
Qed.

Lemma last_char_cons c s :
  s <> EmptyString -> Str.last_char (String c s) = Str.last_char s.
Proof. destruct s; [congruence | reflexivity]. Qed.

Lemma rstrip_no_trailing_space s : Str.trailing_space (Str.rstrip s) = false.
Proof.
  unfold Str.trailing_space.
  induction s as [|d s IH]; [reflexivity|].
  simpl. destruct (Str.rstrip s) as [|c r] eqn:E.
  - destruct (Str.isspace d) eqn:Ed; simpl; [reflexivity | exact Ed].
  - rewrite last_char_cons by discriminate. exact IH.
Qed.

Lemma strip_no_trailing_space s : Str.trailing_space (Str.strip s) = false.
Proof. apply rstrip_no_trailing_space. Qed.

Lemma splitlines_nonempty c s : Str.splitlines (String c s) <> [].
Proof.
  simpl. destruct (Str.islinebreak c); [discriminate|].
  destruct (Str.splitlines s); discriminate.
Qed.

(** A text that does not end at a line boundary ends with its last
    line, which is not empty. *)
Lemma splitlines_last s :
  s <> EmptyString ->
  (forall c, Str.last_char s = Some c -> Str.islinebreak c = false) ->
  exists l, last (Str.splitlines s) = Some l
            /\ l <> EmptyString
            /\ Str.last_char l = Str.last_char s.
Proof.
  induction s as [|c|c d s IHs IHds] using string_pair_ind; intros Hne Hlast.
  - congruence.
  - simpl in *. rewrite (Hlast c eq_refl). simpl. eauto.
  - assert (Hds : exists l, last (Str.splitlines (String d s)) = Some l
              /\ l <> EmptyString
              /\ Str.last_char l = Str.last_char (String d s)).
    { apply IHds; [discriminate|].
      intros x Hx. apply Hlast. rewrite last_char_cons by discriminate.
      exact Hx. }
    rewrite (last_char_cons c (String d s)) by discriminate.
    destruct Hds as (l & Hl & Hlne & Hlc).
    change (Str.splitlines (String c (String d s))) with
      (if Str.islinebreak c
       then EmptyString ::
              match c, String d s with
              | "013"%char, String "010"%char s'' => Str.splitlines s''
              | _, _ => Str.splitlines (String d s)
              end
       else Str.push c (Str.splitlines (String d s))).
    destruct (Str.islinebreak c) eqn:Ec.
    + assert (Hrest : exists l', last
                match c, String d s with
                | "013"%char, String "010"%char s'' => Str.splitlines s''
                | _, _ => Str.splitlines (String d s)
                end = Some l' /\ l' <> EmptyString
                /\ Str.last_char l' = Str.last_char (String d s)).
      { destruct (Ascii.eqb c "013") eqn:Ecr;
          [apply Ascii.eqb_eq in Ecr; subst c
          |apply Ascii.eqb_neq in Ecr].
        - destruct (Ascii.eqb d "010") eqn:Elf;
            [apply Ascii.eqb_eq in Elf; subst d
            |apply Ascii.eqb_neq in Elf].
          + destruct s as [|e s].
            * exfalso. specialize (Hlast "010"%char eq_refl). discriminate.
            * destruct IHs as (l' & ? & ? & ?); [discriminate| |].
              { intros x Hx. apply Hlast.
                rewrite !last_char_cons by discriminate. exact Hx. }
              exists l'. rewrite last_char_cons by discriminate. auto.
          + exists l. split; [|auto].
            destruct d as [[] [] [] [] [] [] [] []]; try exact Hl.
            congruence.
        - exists l. split; [|auto].
          destruct c as [[] [] [] [] [] [] [] []]; try exact Hl.
          congruence. }
      destruct Hrest as (l' & Hl' & ? & ?).
      exists l'. split; [|auto].
      destruct (match c, String d s with
                | "013"%char, String "010"%char s'' => Str.splitlines s''
                | _, _ => Str.splitlines (String d s)
                end); [discriminate | exact Hl'].
    + destruct (Str.splitlines (String d s)) as [|x xs] eqn:Ex;
        [discriminate|].
      simpl. destruct xs as [|y ys].
      * simpl in Hl. injection Hl as ->.
        exists (String c l). repeat split; [discriminate|].
        rewrite last_char_cons by assumption. exact Hlc.
      * exists l. auto.
Qed.

Lemma lower_char_y c :
  Str.lower_char c = "y"%char -> c = "y"%char \/ c = "Y"%char.
Proof.
  destruct c as [[] [] [] [] [] [] [] []]; vm_compute; intros E;
    first [discriminate E | left; reflexivity | right; reflexivity].
Qed.

(** Lower-casing gives ["y"] for ["y"] and ["Y"] only. *)
Lemma lower_is_y s : Str.lower s = "y" <-> s = "y" \/ s = "Y".
Proof.
  split.
  - destruct s as [|c [|d s]]; simpl; try discriminate.
    intros E. injection E as E.
    destruct (lower_char_y c E); subst; auto.
  - intros [-> | ->]; reflexivity.
Qed.

Lemma append_cons c s t : String c s +:+ t = String c (s +:+ t).
Proof. reflexivity. Qed.

Lemma append_assoc s t u : (s +:+ t) +:+ u = s +:+ t +:+ u.
Proof.
  induction s as [|c s IH]; [reflexivity|].
  rewrite !append_cons, IH. reflexivity.
Qed.

Lemma join_snoc sep l x :
  l <> [] -> Str.join sep (l ++ [x]) = Str.join sep l +:+ sep +:+ x.
Proof.
  induction l as [|a l IH]; [congruence|]. intros _.
  destruct l as [|b l].
  - reflexivity.
  - change (Str.join sep ((a :: b :: l) ++ [x]))
      with (a +:+ sep +:+ Str.join sep ((b :: l) ++ [x])).
    rewrite IH by discriminate.
    change (Str.join sep (a :: b :: l))
      with (a +:+ sep +:+ Str.join sep (b :: l)).
    rewrite !append_assoc. reflexivity.
Qed.

End StrLemmas.

(** ** The generator *)

Section Generator.
Context {Path : Type} `{Countable Path}.
Variable joinpath : Path -> string -> Path.

Implicit Types (w : IO.World Path) (path p : Path).
Implicit Types (templates extra : option (list string)).

Local Abbreviation generate := (GitignoreGenerator.generate joinpath).
Local Abbreviation read_gitignore :=
  (GitignoreGenerator.read_gitignore joinpath).
Local Abbreviation gitignore_of path := (joinpath path ".gitignore").

Local Ltac unfold_io :=
  unfold IO.exec, IO.value, IO.try_except, IO.bind, IO.ret, IO.print,
    IO.input, IO.exists_, IO.write_text, IO.append_text, IO.read_text,
    IO.urlopen_read in *.

Lemma set_console_same w : IO.set_console (IO.console w ++ []) w = w.
Proof. destruct w. unfold IO.set_console. simpl. by rewrite app_nil_r. Qed.

Lemma fetch_template_success ts w body :
  IO.http w (GitignoreGenerator.url ts) = IO.Ok body ->
  GitignoreGenerator.fetch_template ts w
  = (IO.Ok (Str.splitlines (Str.strip body)), w).
Proof.
  intros E. unfold GitignoreGenerator.fetch_template. unfold_io.
  by rewrite E.
Qed.

Lemma fetch_template_failure ts w e :
  IO.http w (GitignoreGenerator.url ts) = IO.Raise e ->
  GitignoreGenerator.fetch_template ts w
  = (IO.Ok [], IO.set_console (IO.console w ++ [IO.FetchFailed e]) w).
Proof.
  intros E. unfold GitignoreGenerator.fetch_template. unfold_io.
  by rewrite E.
Qed.

(** The fetch returns lines, never an exception, and touches the
    console only. *)
Lemma fetch_phase_frame templates w :
  exists lines evs,
    GitignoreGenerator.fetch_phase templates w
    = (IO.Ok lines, IO.set_console (IO.console w ++ evs) w).
Proof.
  unfold GitignoreGenerator.fetch_phase.
  destruct (GitignoreGenerator.truthy templates).
  - destruct (IO.http w (GitignoreGenerator.url (default [] templates)))
      as [body|e] eqn:E.
    + rewrite (fetch_template_success _ _ _ E).
      exists (Str.splitlines (Str.strip body)), [].
      by rewrite set_console_same.
    + rewrite (fetch_template_failure _ _ _ E). eauto.
  - exists [], []. unfold IO.ret. by rewrite set_console_same.
Qed.

Lemma fetch_phase_run templates w :
  exists evs,
    GitignoreGenerator.fetch_phase templates w
    = (IO.Ok (Obs.fetched templates w), Obs.after_fetch templates w)
    /\ Obs.after_fetch templates w
       = IO.set_console (IO.console w ++ evs) w.
Proof.
  destruct (fetch_phase_frame templates w) as (lines & evs & E).
  exists evs. unfold Obs.fetched, Obs.after_fetch, IO.value, IO.exec.
  by rewrite E.
Qed.

(** The list that [generate] writes: fetched lines, then the
    defaults, then the extra entries. *)
Lemma assemble_app fetched extra :
  GitignoreGenerator.assemble fetched extra
  = fetched ++ GitignoreGenerator.DEFAULT_ENTRIES ++ default [] extra.
Proof.
  unfold GitignoreGenerator.assemble.
  destruct extra as [[|x l]|]; simpl; rewrite ?app_nil_r, <- ?app_assoc;
    reflexivity.
Qed.

(** The [try] block when the file can be opened: the text is stored
    and the success is reported. *)
Lemma store_ok p append entries w :
  IO.write_fault w p = None ->
  IO.try_except (GitignoreGenerator.write_entries p append entries)
    (fun e => IO.print (IO.WriteFailed e)) w
  = (IO.Ok tt,
     IO.set_console (IO.console w ++ [IO.Stored p])
       (IO.set_fs
          (<[p := Obs.file_after (IO.fs w !! p) append
                    (GitignoreGenerator.content_of entries)]> (IO.fs w))
          w)).
Proof.
  intros E. unfold GitignoreGenerator.write_entries, Obs.file_after.
  unfold_io.
  destruct (IO.fs w !! p) as [c|] eqn:Ep, append; simpl;
    rewrite E; simpl; rewrite ?Ep; reflexivity.
Qed.

(** The [try] block when opening the file raises: nothing is stored
    and the failure is reported. *)
Lemma store_fault p append entries w e :
  IO.write_fault w p = Some e ->
  IO.try_except (GitignoreGenerator.write_entries p append entries)
    (fun e => IO.print (IO.WriteFailed e)) w
  = (IO.Ok tt, IO.set_console (IO.console w ++ [IO.WriteFailed e]) w).
Proof.
  intros E. unfold GitignoreGenerator.write_entries. unfold_io.
  destruct (IO.fs w !! p) as [c|], append; simpl; rewrite E; reflexivity.
Qed.

(** The question is skipped when [generate] need not ask. *)
Lemma confirm_silent p append force w :
  Obs.asks p append force w = false ->
  GitignoreGenerator.confirm p append force w = (IO.Ok true, w).
Proof.
  unfold Obs.asks, GitignoreGenerator.confirm. unfold_io.
  destruct (IO.fs w !! p), force, append; simpl; congruence.
Qed.

(** The question, when [generate] has to ask. *)
Lemma confirm_asked p append force w :
  Obs.asks p append force w = true ->
  let w1 := IO.set_typed (S (IO.typed w))
              (IO.set_console (IO.console w ++ [IO.Prompt p]) w) in
  GitignoreGenerator.confirm p append force w
  = if Obs.affirmative (IO.keyboard w (IO.typed w))
    then (IO.Ok true, w1)
    else (IO.Ok false,
          IO.set_console (IO.console w1 ++ [IO.Canceled]) w1).
Proof.
  unfold Obs.asks, GitignoreGenerator.confirm, Obs.affirmative. unfold_io.
  destruct (IO.fs w !! p), force, append; simpl; try congruence.
  intros _. destruct (String.eqb _ "y"); reflexivity.
Qed.

Lemma asks_after_fetch p append force templates w :
  Obs.asks p append force (Obs.after_fetch templates w)
  = Obs.asks p append force w.
Proof.
  destruct (fetch_phase_run templates w) as (evs & _ & ->). reflexivity.
Qed.

(** [generate] when it need not ask and the file can be opened. *)
Lemma generate_unasked w path extra append force templates :
  let p := gitignore_of path in
  Obs.asks p append force w = false ->
  IO.write_fault w p = None ->
  generate path extra append force templates w
  = (IO.Ok tt,
     IO.set_console
       (IO.console (Obs.after_fetch templates w) ++ [IO.Stored p])
       (IO.set_fs
          (<[p := Obs.file_after (IO.fs w !! p) append
                    (GitignoreGenerator.content_of
                       (GitignoreGenerator.assemble
                          (Obs.fetched templates w) extra))]> (IO.fs w))
          w)).
Proof.
  intros p Hask Hw. unfold GitignoreGenerator.generate.
  unfold IO.bind at 1.
  destruct (fetch_phase_run templates w) as (evs & -> & Ew1).
  unfold IO.bind.
  rewrite confirm_silent by (rewrite asks_after_fetch; exact Hask).
  rewrite store_ok by (rewrite Ew1; exact Hw).
  rewrite Ew1. reflexivity.
Qed.

(** [generate] when it need not ask and opening the file raises. *)
Lemma generate_unasked_fault w path extra append force templates e :
  let p := gitignore_of path in
  Obs.asks p append force w = false ->
  IO.write_fault w p = Some e ->
  generate path extra append force templates w
  = (IO.Ok tt,
     IO.set_console
       (IO.console (Obs.after_fetch templates w) ++ [IO.WriteFailed e]) w).
Proof.
  intros p Hask Hw. unfold GitignoreGenerator.generate.
  unfold IO.bind at 1.
  destruct (fetch_phase_run templates w) as (evs & -> & Ew1).
  unfold IO.bind.
  rewrite confirm_silent by (rewrite asks_after_fetch; exact Hask).
  rewrite (store_fault _ _ _ _ e) by (rewrite Ew1; exact Hw).
  rewrite Ew1. reflexivity.
Qed.

(** [generate] when it asks and the answer is not affirmative. *)
Lemma generate_declined w path extra append force templates :
  let p := gitignore_of path in
  Obs.asks p append force w = true ->
  Obs.affirmative (IO.keyboard w (IO.typed w)) = false ->
  generate path extra append force templates w
  = (IO.Ok tt,
     IO.set_console
       (IO.console (Obs.after_fetch templates w)
          ++ [IO.Prompt p; IO.Canceled])
       (IO.set_typed (S (IO.typed w)) w)).
Proof.
  intros p Hask Hans. unfold GitignoreGenerator.generate.
  unfold IO.bind at 1.
  destruct (fetch_phase_run templates w) as (evs & -> & Ew1).
  unfold IO.bind.
  rewrite confirm_asked by (rewrite asks_after_fetch; exact Hask).
  rewrite Ew1. simpl. rewrite Hans. unfold IO.ret, IO.set_console.
  simpl. by rewrite <- app_assoc.
Qed.

(** [generate] when it asks, the answer is affirmative and the file
    can be opened. *)
Lemma generate_accepted w path extra append force templates :
  let p := gitignore_of path in
  Obs.asks p append force w = true ->
  Obs.affirmative (IO.keyboard w (IO.typed w)) = true ->
  IO.write_fault w p = None ->
  generate path extra append force templates w
  = (IO.Ok tt,
     IO.set_console
       (IO.console (Obs.after_fetch templates w)
          ++ [IO.Prompt p; IO.Stored p])
       (IO.set_typed (S (IO.typed w))
          (IO.set_fs
             (<[p := GitignoreGenerator.content_of
                       (GitignoreGenerator.assemble
                          (Obs.fetched templates w) extra)]> (IO.fs w))
             w))).
Proof.
  intros p Hask Hans Hw. subst p. unfold GitignoreGenerator.generate.
  unfold IO.bind at 1.
  destruct (fetch_phase_run templates w) as (evs & -> & Ew1).
  unfold IO.bind.
  rewrite confirm_asked by (rewrite asks_after_fetch; exact Hask).
  rewrite Ew1. simpl. rewrite Hans.
  rewrite store_ok by exact Hw.
  unfold Obs.asks in Hask. unfold Obs.file_after. simpl.
  destruct (IO.fs w !! gitignore_of path); [|discriminate].
  destruct force, append; try discriminate.
  unfold IO.set_console, IO.set_fs, IO.set_typed. simpl.
  by rewrite <- app_assoc.
Qed.

(** [generate] when it asks, the answer is affirmative and opening
    the file raises. *)
Lemma generate_accepted_fault w path extra append force templates e :
  let p := gitignore_of path in
  Obs.asks p append force w = true ->
  Obs.affirmative (IO.keyboard w (IO.typed w)) = true ->
  IO.write_fault w p = Some e ->
  generate path extra append force templates w
  = (IO.Ok tt,
     IO.set_console
       (IO.console (Obs.after_fetch templates w)
          ++ [IO.Prompt p; IO.WriteFailed e])
       (IO.set_typed (S (IO.typed w)) w)).
Proof.
  intros p Hask Hans Hw. unfold GitignoreGenerator.generate.
  unfold IO.bind at 1.
  destruct (fetch_phase_run templates w) as (evs & -> & Ew1).
  unfold IO.bind.
  rewrite confirm_asked by (rewrite asks_after_fetch; exact Hask).
  rewrite Ew1. simpl. rewrite Hans.
  rewrite (store_fault _ _ _ _ e) by exact Hw.
  unfold IO.set_console, IO.set_typed. simpl.
  by rewrite <- app_assoc.
Qed.

(** No exception leaves [generate]. *)
Lemma generate_returns w path extra append force templates :
  IO.value (generate path extra append force templates) w = IO.Ok tt.
Proof.
  unfold IO.value.
  destruct (Obs.asks (gitignore_of path) append force w) eqn:Hask;
    [destruct (Obs.affirmative (IO.keyboard w (IO.typed w))) eqn:Hans|];
    destruct (IO.write_fault w (gitignore_of path)) as [e|] eqn:Hw.
  - by rewrite (generate_accepted_fault _ _ _ _ _ _ e).
  - by rewrite generate_accepted.
  - by rewrite generate_declined.
  - by rewrite generate_declined.
  - by rewrite (generate_unasked_fault _ _ _ _ _ _ e).
  - by rewrite generate_unasked.
Qed.

Lemma affirmative_spec answer :
  Obs.affirmative answer = true <-> Str.lower (Str.strip answer) = "y".
Proof. unfold Obs.affirmative. apply String.eqb_eq. Qed.

Lemma affirmative_false answer :
  Obs.affirmative answer = false <-> Str.lower (Str.strip answer) <> "y".
Proof. unfold Obs.affirmative. apply String.eqb_neq. Qed.

Lemma asks_existing p w c :
  IO.fs w !! p = Some c -> Obs.asks p false false w = true.
Proof. unfold Obs.asks. by intros ->. Qed.

Lemma asks_append p force w : Obs.asks p true force w = false.
Proof. unfold Obs.asks. destruct (IO.fs w !! p), force; reflexivity. Qed.

Lemma asks_force p append w : Obs.asks p append true w = false.
Proof. unfold Obs.asks. destruct (IO.fs w !! p); reflexivity. Qed.

(** The file after a write of [generate], in every mode. *)
Lemma generate_stores w path extra append force templates :
  let p := gitignore_of path in
  Obs.proceeds p append force w = true ->
  IO.write_fault w p = None ->
  IO.fs (IO.exec (generate path extra append force templates) w)
  = <[p := Obs.file_after (IO.fs w !! p) append
              (GitignoreGenerator.content_of
                 (GitignoreGenerator.assemble
                    (Obs.fetched templates w) extra))]> (IO.fs w).
Proof.
  intros p Hgo Hw. subst p. unfold IO.exec, Obs.proceeds in *.
  destruct (Obs.asks (gitignore_of path) append force w) eqn:Hask.
  - simpl in Hgo. rewrite generate_accepted by assumption. simpl.
    unfold Obs.asks, Obs.file_after in *.
    destruct (IO.fs w !! gitignore_of path); [|discriminate].
    destruct force, append; try discriminate. reflexivity.
  - by rewrite generate_unasked.
Qed.

(** A failed fetch contributes no line. *)
Lemma fetched_failure ts w e :
  ts <> [] ->
  IO.http w (GitignoreGenerator.url ts) = IO.Raise e ->
  Obs.fetched (Some ts) w = [].
Proof.
  intros Hts E. unfold Obs.fetched, IO.value, GitignoreGenerator.fetch_phase.
  destruct ts as [|t ts]; [congruence|]. simpl.
  by rewrite (fetch_template_failure _ _ e).
Qed.

(** C1 (amended). For all fetched template lines and extra entries,
    when a write occurs [generate] stores the text made of the fetched
    lines, then [DEFAULT_ENTRIES], then the extra entries, in that
    order, joined by newlines and ended by one newline, with nothing
    removed, reordered or checked. That text is the whole file when
    the file is created or overwritten; when [generate] appends to an
    existing file it comes after the prior content and one newline. *)
Theorem generate_writes_assembled w path extra append force templates :
  let p := gitignore_of path in
  let text :=
    Str.join Str.nl
      (Obs.fetched templates w ++ GitignoreGenerator.DEFAULT_ENTRIES
         ++ default [] extra) +:+ Str.nl in
  Obs.proceeds p append force w = true ->
  IO.write_fault w p = None ->
  IO.fs (IO.exec (generate path extra append force templates) w)
  = <[p := match IO.fs w !! p with
           | Some prior => if append then prior +:+ Str.nl +:+ text else text
           | None => text
           end]> (IO.fs w).
Proof.
  intros p text Hgo Hw. subst p text.
  rewrite generate_stores by assumption.
  by rewrite assemble_app.
Qed.

(** C2. With [append] set and an existing file of content [c],
    [generate] leaves the file with [c], one newline, the entries
    joined by newlines and one final newline; [c] is kept as it is. *)
Theorem generate_append_existing w path extra force templates c :
  let p := gitignore_of path in
  let entries :=
    GitignoreGenerator.assemble (Obs.fetched templates w) extra in
  IO.fs w !! p = Some c ->
  IO.write_fault w p = None ->
  IO.fs (IO.exec (generate path extra true force templates) w)
  = <[p := c +:+ Str.nl +:+ Str.join Str.nl entries +:+ Str.nl]> (IO.fs w).
Proof.
  intros p entries Hc Hw. subst p entries.
  rewrite generate_stores; [|unfold Obs.proceeds; by rewrite asks_append|done].
  by rewrite Hc.
Qed.

(** C3. With [force] set and [append] not set, [generate] asks
    nothing (no line is read, the console gets the success message
    only) and an existing file ends up holding exactly the entries
    joined by newlines and one final newline. *)
Theorem generate_force_overwrites w path extra templates c :
  let p := gitignore_of path in
  let entries :=
    GitignoreGenerator.assemble (Obs.fetched templates w) extra in
  let w' := IO.exec (generate path extra false true templates) w in
  IO.fs w !! p = Some c ->
  IO.write_fault w p = None ->
  IO.fs w' = <[p := Str.join Str.nl entries +:+ Str.nl]> (IO.fs w)
  /\ IO.typed w' = IO.typed w
  /\ IO.console w'
     = IO.console (Obs.after_fetch templates w) ++ [IO.Stored p].
Proof.
  intros p entries w' Hc Hw. subst p entries w'. unfold IO.exec.
  rewrite generate_unasked by (try apply asks_force; done).
  simpl. by rewrite Hc.
Qed.

(** C4. With an existing file and neither [force] nor [append],
    [generate] returns normally after asking once. An answer whose
    stripped, lower-cased form is not ["y"] ends the call with the
    cancellation notice and the files untouched; the call goes on to
    the write exactly when that form is ["y"], which holds for the
    stripped answers ["y"] and ["Y"] only. *)
Theorem generate_asks_before_overwrite w path extra templates c :
  let p := gitignore_of path in
  let answer := IO.keyboard w (IO.typed w) in
  let entries :=
    GitignoreGenerator.assemble (Obs.fetched templates w) extra in
  let run := generate path extra false false templates in
  let w' := IO.exec run w in
  IO.fs w !! p = Some c ->
  IO.value run w = IO.Ok tt
  /\ IO.typed w' = S (IO.typed w)
  /\ (exists ev,
        IO.console w'
        = IO.console (Obs.after_fetch templates w) ++ [IO.Prompt p; ev])
  /\ (Str.lower (Str.strip answer) <> "y" ->
      IO.fs w' = IO.fs w /\ last (IO.console w') = Some IO.Canceled)
  /\ (last (IO.console w') <> Some IO.Canceled
      <-> Str.lower (Str.strip answer) = "y")
  /\ (Str.lower (Str.strip answer) = "y" ->
      IO.write_fault w p = None ->
      IO.fs w' = <[p := Str.join Str.nl entries +:+ Str.nl]> (IO.fs w)
      /\ last (IO.console w') = Some (IO.Stored p))
  /\ (Str.lower (Str.strip answer) = "y"
      <-> Str.strip answer = "y" \/ Str.strip answer = "Y").
Proof.
  intros p answer entries run w' Hc. subst p answer entries run w'.
  pose proof (asks_existing _ _ _ Hc) as Hask.
  split; [apply generate_returns|].
  unfold IO.exec.
  destruct (Obs.affirmative (IO.keyboard w (IO.typed w))) eqn:Hans.
  - pose proof (proj1 (affirmative_spec _) Hans) as Hy.
    destruct (IO.write_fault w (gitignore_of path)) as [e|] eqn:Hw.
    + rewrite (generate_accepted_fault _ _ _ _ _ _ e) by assumption.
      simpl. rewrite !last_app. simpl.
      repeat split; eauto; try congruence; try apply lower_is_y.
    + rewrite generate_accepted by assumption.
      simpl. rewrite !last_app. simpl.
      repeat split; eauto; try congruence; try apply lower_is_y.
  - pose proof (proj1 (affirmative_false _) Hans) as Hn.
    rewrite generate_declined by assumption.
    simpl. rewrite !last_app. simpl.
    repeat split; eauto; try congruence; try apply lower_is_y.
Qed.

(** C5 (amended). When the fetch fails, [fetch_template] reports the
    failure and returns the empty list, no exception leaves
    [generate], and the text that [generate] then stores is made of
    [DEFAULT_ENTRIES] and the extra entries only, with no template
    line: as the whole file when the file is created or overwritten,
    after the prior content and one newline when [generate] appends
    to an existing file. *)
Theorem generate_fetch_failure w path extra append force ts e :
  let p := gitignore_of path in
  let run := generate path extra append force (Some ts) in
  let text :=
    Str.join Str.nl
      (GitignoreGenerator.DEFAULT_ENTRIES ++ default [] extra)
      +:+ Str.nl in
  ts <> [] ->
  IO.http w (GitignoreGenerator.url ts) = IO.Raise e ->
  GitignoreGenerator.fetch_template ts w
  = (IO.Ok [], IO.set_console (IO.console w ++ [IO.FetchFailed e]) w)
  /\ IO.value run w = IO.Ok tt
  /\ (Obs.proceeds p append force w = true ->
      IO.write_fault w p = None ->
      IO.fs (IO.exec run w)
      = <[p := match IO.fs w !! p with
               | Some prior =>
                   if append then prior +:+ Str.nl +:+ text else text
               | None => text
               end]> (IO.fs w)).
Proof.
  intros p run text Hts E. subst p run text.
  split; [by apply fetch_template_failure|].
  split; [apply generate_returns|].
  intros Hgo Hw. rewrite generate_stores by assumption.
  by rewrite assemble_app, (fetched_failure _ _ e).
Qed.

(** C6 (amended). On a successful response [fetch_template] returns
    the lines of the body, in order, after white space has been
    stripped from the two ends of the body as a whole: the last line
    returned carries no trailing white space, the lines before it
    keep theirs. *)
Theorem fetch_template_lines ts w body :
  IO.http w (GitignoreGenerator.url ts) = IO.Ok body ->
  GitignoreGenerator.fetch_template ts w
  = (IO.Ok (Str.splitlines (Str.strip body)), w)
  /\ (forall l, last (Str.splitlines (Str.strip body)) = Some l ->
                Str.trailing_space l = false).
Proof.
  intros E. split; [by apply fetch_template_success|].
  intros l Hl.
  pose proof (strip_no_trailing_space body) as Hstrip.
  destruct (Str.strip body) as [|c t] eqn:Et; [discriminate|].
  destruct (splitlines_last (String c t)) as (l' & Hl' & _ & Hlast).
  - discriminate.
  - intros x Hx. unfold Str.trailing_space in Hstrip. rewrite Hx in Hstrip.
    destruct (Str.islinebreak x) eqn:Ex; [|reflexivity].
    apply linebreak_is_space in Ex. congruence.
  - rewrite Hl in Hl'. injection Hl' as <-.
    unfold Str.trailing_space in *. by rewrite Hlast.
Qed.

(** C9. [read_gitignore] writes nothing: the files are the same
    after the call whatever happens. When the file is absent the
    call only reports that it was not found; when it is there and
    can be read, the call only shows its whole text as it is. *)
Theorem read_gitignore_read_only w path :
  let p := gitignore_of path in
  let w' := IO.exec (read_gitignore path) w in
  IO.value (read_gitignore path) w = IO.Ok tt
  /\ IO.fs w' = IO.fs w
  /\ (IO.fs w !! p = None ->
      w' = IO.set_console (IO.console w ++ [IO.NotFound p]) w)
  /\ (forall c, IO.fs w !! p = Some c -> IO.read_fault w p = None ->
      w' = IO.set_console (IO.console w ++ [IO.Content c]) w).
Proof.
  intros p w'. subst p w'.
  unfold GitignoreGenerator.read_gitignore. unfold_io.
  destruct (IO.fs w !! gitignore_of path) as [c|] eqn:Ec; simpl.
  - destruct (IO.read_fault w (gitignore_of path)) as [e|] eqn:Er; simpl;
      rewrite ?Ec; simpl; repeat split; try congruence.
  - repeat split; congruence.
Qed.

End Generator.

(** ** The command line *)

Section CommandLine.
Context {Path : Type} `{Countable Path}.
Variable joinpath : Path -> string -> Path.

Implicit Types (w : IO.World Path) (args : Cli.Args Path).

Local Abbreviation main := (Cli.main joinpath).
Local Abbreviation slashed e := (Str.replace "\" "/" e).

(** The nested conditionals of [main] pick the first rule of the list
    that applies. *)
Lemma sniff_first_match s :
  Cli.sniff s
  = match Normalizer.chosen s with
    | Some r => Normalizer.pieces r s
    | None => []
    end.
Proof.
  unfold Cli.sniff, Normalizer.chosen, Normalizer.priority. simpl.
  unfold Normalizer.wrapped.
  repeat match goal with
         | |- context [if ?b then _ else _] => destruct b; simpl; try reflexivity
         end.
Qed.

(** The rule chosen applies, and no rule before it in the list does. *)
Lemma chosen_first s r :
  Normalizer.chosen s = Some r ->
  Normalizer.applies r s = true
  /\ exists before after,
       Normalizer.priority = before ++ r :: after
       /\ Forall (fun r' => Normalizer.applies r' s = false) before.
Proof.
  unfold Normalizer.chosen. generalize Normalizer.priority as rules.
  induction rules as [|r' rules IH]; simpl; [discriminate|].
  destruct (Normalizer.applies r' s) eqn:E.
  - intros [= <-]. split; [exact E|]. exists [], rules. by split.
  - intros Hr. destruct (IH Hr) as (Happ & before & after & -> & Hall).
    split; [exact Happ|]. exists (r' :: before), after. split; [done|].
    by constructor.
Qed.

Lemma normalize_nonempty args e :
  Cli.entries args = Some e -> e <> EmptyString ->
  Cli.normalize args
  = Cli.mkArgs (Some (slashed e)) (Cli.path args)
      (Cli.data args ++ Cli.sniff (slashed e))
      (Cli.template args) true (Cli.force args) (Cli.read args).
Proof.
  intros E Hne. unfold Cli.normalize. rewrite E.
  destruct e; [congruence | reflexivity].
Qed.

Lemma fetched_console templates evs w :
  Obs.fetched templates (IO.set_console evs w) = Obs.fetched templates w.
Proof.
  unfold Obs.fetched, IO.value, GitignoreGenerator.fetch_phase,
    GitignoreGenerator.fetch_template, IO.try_except, IO.bind, IO.ret,
    IO.urlopen_read, IO.print.
  destruct (GitignoreGenerator.truthy templates); [|reflexivity].
  simpl. by destruct (IO.http w _).
Qed.

(** [main] when the file is not just shown. *)
Lemma main_generates args w :
  Cli.read args = false ->
  let args' := Cli.normalize args in
  main args w
  = GitignoreGenerator.generate joinpath (Cli.path args')
      (Some (Cli.data args')) (Cli.append args') (Cli.force args')
      (Cli.template args')
      (IO.set_console (IO.console w ++ [IO.Starting]) w).
Proof.
  intros Hr args'. subst args'. unfold Cli.main.
  assert (Cli.read (Cli.normalize args) = false) as ->.
  { unfold Cli.normalize. destruct (Cli.entries args) as [[|c e]|]; done. }
  reflexivity.
Qed.

Lemma content_of_blank l :
  l <> [] ->
  GitignoreGenerator.content_of (l ++ [EmptyString])
  = GitignoreGenerator.content_of l +:+ Str.nl.
Proof.
  intros Hl. unfold GitignoreGenerator.content_of.
  rewrite join_snoc by assumption.
  rewrite !append_assoc. reflexivity.
Qed.

Lemma blank_line_after prior l :
  Obs.ends_with_blank_line
    (Obs.file_after prior true
       (GitignoreGenerator.content_of l +:+ Str.nl)).
Proof.
  unfold Obs.ends_with_blank_line, Obs.file_after,
    GitignoreGenerator.content_of.
  destruct prior as [c|].
  - exists (c +:+ Str.nl +:+ Str.join Str.nl l).
    by rewrite !append_assoc.
  - exists (Str.join Str.nl l). by rewrite !append_assoc.
Qed.

(** C7 (amended). For every positional string that is not empty and
    is not a comma-separated list inside brackets or braces, [main]
    first turns every backslash into a slash and then adds to the
    data what exactly one rule gives, the first that applies to the
    whole string among: comma split, split into lines as
    [str.splitlines] does (when there is a line feed), semicolon
    split, colon split, pipe split, white space split (when there is
    a space), strip of an outer pair of brackets or braces then comma
    split, strip of an outer pair of double quotes, single quotes or
    backquotes as one entry, the stripped string if not empty as one
    entry, the string itself as one entry. In particular [a,b,c] and
    [a b c] give the three entries [a], [b] and [c], [a] between
    double quotes gives [a], and [a\b] gives the one entry [a/b]. An
    empty string is skipped altogether: nothing is added and the
    append flag is left as it was. *)
Theorem normalize_by_priority args e :
  Cli.entries args = Some e ->
  (e = EmptyString -> Cli.normalize args = args)
  /\ (e <> EmptyString ->
      Normalizer.bracketed_list (slashed e) = false ->
      Cli.entries (Cli.normalize args) = Some (slashed e)
      /\ Cli.data (Cli.normalize args)
         = Cli.data args ++ Normalizer.normalizer e
      /\ (exists r before after,
            Normalizer.chosen (slashed e) = Some r
            /\ Normalizer.normalizer e = Normalizer.pieces r (slashed e)
            /\ Normalizer.applies r (slashed e) = true
            /\ Normalizer.priority = before ++ r :: after
            /\ Forall (fun r' => Normalizer.applies r' (slashed e) = false)
                 before)
      /\ (Str.contains "," (slashed e) = false ->
          Str.contains "010" (slashed e) = true ->
          Cli.data (Cli.normalize args)
          = Cli.data args ++ Str.splitlines (slashed e))
      /\ (forall a : Cli.Args Path, Cli.entries a = Some "a,b,c" ->
          Cli.data (Cli.normalize a) = Cli.data a ++ ["a"; "b"; "c"])
      /\ (forall a : Cli.Args Path, Cli.entries a = Some "a b c" ->
          Cli.data (Cli.normalize a) = Cli.data a ++ ["a"; "b"; "c"])
      /\ (forall a : Cli.Args Path, Cli.entries a = Some Demo.quoted_a ->
          Cli.data (Cli.normalize a) = Cli.data a ++ ["a"])
      /\ (forall a : Cli.Args Path, Cli.entries a = Some "a\b" ->
          Cli.data (Cli.normalize a) = Cli.data a ++ ["a/b"])).
Proof.
  intros E. split.
  { intros ->. unfold Cli.normalize. by rewrite E. }
  intros Hne _.
  rewrite (normalize_nonempty _ _ E Hne). simpl.
  split; [reflexivity|]. split.
  { unfold Normalizer.normalizer. by rewrite sniff_first_match. }
  split; [|split].
  - unfold Normalizer.normalizer.
    destruct (Normalizer.chosen (slashed e)) as [r|] eqn:Er.
    + destruct (chosen_first _ _ Er) as (Happ & before & after & Hp & Hall).
      exists r, before, after. auto.
    + exfalso. revert Er. unfold Normalizer.chosen, Normalizer.priority.
      simpl.
      repeat match goal with
             | |- context [if ?b then _ else _] => destruct b; try discriminate
             end.
  - intros Hcomma Hlf. unfold Cli.sniff. by rewrite Hcomma, Hlf.
  - repeat split; intros a Ea;
      rewrite (normalize_nonempty _ _ Ea) by discriminate; reflexivity.
Qed.

(** C8. Whenever the positional argument is given and not empty, the
    request becomes an append: [main] sets the append flag whatever
    its value and whatever the force flag, and (unless the file is
    only shown) calls [generate] with it set. *)
Theorem entries_imply_append args e w :
  Cli.entries args = Some e ->
  e <> EmptyString ->
  Cli.append (Cli.normalize args) = true
  /\ Cli.force (Cli.normalize args) = Cli.force args
  /\ (Cli.read args = false ->
      main args w
      = GitignoreGenerator.generate joinpath (Cli.path args)
          (Some (Cli.data args ++ Cli.sniff (slashed e)))
          true (Cli.force args) (Cli.template args)
          (IO.set_console (IO.console w ++ [IO.Starting]) w)).
Proof.
  intros E Hne. split; [|split].
  - by rewrite (normalize_nonempty _ _ E Hne).
  - by rewrite (normalize_nonempty _ _ E Hne).
  - intros Hr. rewrite main_generates by assumption.
    by rewrite (normalize_nonempty _ _ E Hne).
Qed.

(** C10. A positional argument made of one quote character (double
    quote, single quote or backquote) passes the tests on its first
    and on its last character with that same character, is stripped
    to the empty string, and adds exactly one empty entry to the
    data; the file then written ends with an empty line. *)
Theorem lone_quote_blank_line args q w :
  let p := joinpath (Cli.path args) ".gitignore" in
  let e := String q EmptyString in
  let text :=
    GitignoreGenerator.content_of
      (Obs.fetched (Cli.template args) w
         ++ GitignoreGenerator.DEFAULT_ENTRIES ++ Cli.data args) in
  q = "034"%char \/ q = "'"%char \/ q = "`"%char ->
  Cli.entries args = Some e ->
  Str.startswith q e = true
  /\ Str.endswith q e = true
  /\ Str.slice_1_m1 e = EmptyString
  /\ Cli.data (Cli.normalize args) = Cli.data args ++ [EmptyString]
  /\ (Cli.read args = false ->
      IO.write_fault w p = None ->
      exists stored,
        IO.fs (IO.exec (main args) w) !! p = Some stored
        /\ stored = Obs.file_after (IO.fs w !! p) true (text +:+ Str.nl)
        /\ Obs.ends_with_blank_line stored).
Proof.
  intros p e text Hq E. subst p e text.
  assert (Hsniff : Cli.sniff (slashed (String q EmptyString)) = [EmptyString])
    by (destruct Hq as [-> | [-> | ->]]; reflexivity).
  split; [simpl; apply Ascii.eqb_refl|].
  split; [simpl; apply Ascii.eqb_refl|].
  split; [reflexivity|].
  split.
  { rewrite (normalize_nonempty _ _ E) by discriminate.
    rewrite Hsniff. reflexivity. }
  intros Hr Hw. unfold IO.exec.
  rewrite main_generates by assumption.
  rewrite (normalize_nonempty _ _ E) by discriminate.
  rewrite Hsniff. cbn [Cli.path Cli.data Cli.append Cli.force Cli.template].
  pose proof (generate_stores joinpath
                (IO.set_console (IO.console w ++ [IO.Starting]) w)
                (Cli.path args) (Some (Cli.data args ++ [EmptyString]))
                true (Cli.force args) (Cli.template args)) as Hstore.
  simpl in Hstore. unfold IO.exec in Hstore. rewrite Hstore; clear Hstore.
  - rewrite lookup_insert_eq. eexists. split; [reflexivity|].
    rewrite fetched_console, assemble_app. simpl default.
    set (lines := Obs.fetched (Cli.template args) w).
    assert (Hre : lines ++ GitignoreGenerator.DEFAULT_ENTRIES
                    ++ Cli.data args ++ [EmptyString]
                  = (lines ++ GitignoreGenerator.DEFAULT_ENTRIES
                       ++ Cli.data args) ++ [EmptyString])
      by (by rewrite <- !app_assoc).
    rewrite Hre, content_of_blank by (destruct lines; discriminate).
    split; [reflexivity|]. apply blank_line_after.
  - unfold Obs.proceeds. by rewrite asks_append.
  - exact Hw.
Qed.

End CommandLine.

(** ** The theorems at concrete inputs *)

Section Instances.

Local Abbreviation generate := (GitignoreGenerator.generate Demo.joinpath).
Local Abbreviation main := (Cli.main Demo.joinpath).

(** An overwrite keeps a duplicated extra entry and the order given. *)
Lemma generate_writes_assembled_witness :
  Obs.proceeds Demo.target false true Demo.existing_online = true
  /\ IO.write_fault Demo.existing_online Demo.target = None
  /\ IO.fs (IO.exec (generate "proj" (Some ["*.pyc"; "*.aux"]) false true
                       (Some ["python"])) Demo.existing_online)
     = <[Demo.target :=
           Str.join Str.nl
             (["a "; "b"] ++ GitignoreGenerator.DEFAULT_ENTRIES
                ++ ["*.pyc"; "*.aux"]) +:+ Str.nl]>
         (IO.fs Demo.existing_online).
Proof.
  split; [reflexivity|]. split; [reflexivity|].
  exact (generate_writes_assembled Demo.joinpath Demo.existing_online
           "proj" (Some ["*.pyc"; "*.aux"]) false true (Some ["python"])
           eq_refl eq_refl).
Defined.

(** C1 as stated fails when [generate] appends to an existing file:
    the file does not hold the assembled text alone, and what was
    added to it starts with one more newline. *)
Lemma generate_append_keeps_prior :
  Obs.proceeds Demo.target true false Demo.existing_offline = true
  /\ IO.write_fault Demo.existing_offline Demo.target = None
  /\ IO.fs (IO.exec (generate "proj" None true false None)
              Demo.existing_offline) !! Demo.target
     = Some (Demo.old +:+ Str.nl +:+ Demo.defaults_text)
  /\ IO.fs (IO.exec (generate "proj" None true false None)
              Demo.existing_offline) !! Demo.target
     <> Some Demo.defaults_text
  /\ Str.nl +:+ Demo.defaults_text <> Demo.defaults_text.
Proof.
  repeat split; try reflexivity; vm_compute; discriminate.
Qed.

Lemma generate_append_existing_witness :
  IO.fs Demo.existing_offline !! Demo.target = Some Demo.old
  /\ IO.write_fault Demo.existing_offline Demo.target = None
  /\ IO.fs (IO.exec (generate "proj" (Some ["*.aux"]) true false None)
              Demo.existing_offline)
     = <[Demo.target :=
           Demo.old +:+ Str.nl
             +:+ Str.join Str.nl
                   (GitignoreGenerator.DEFAULT_ENTRIES ++ ["*.aux"])
             +:+ Str.nl]>
         (IO.fs Demo.existing_offline).
Proof.
  split; [reflexivity|]. split; [reflexivity|].
  exact (generate_append_existing Demo.joinpath Demo.existing_offline
           "proj" (Some ["*.aux"]) false None Demo.old eq_refl eq_refl).
Defined.

Lemma generate_force_overwrites_witness :
  IO.fs Demo.existing_offline !! Demo.target = Some Demo.old
  /\ IO.write_fault Demo.existing_offline Demo.target = None
  /\ IO.fs (IO.exec (generate "proj" None false true None)
              Demo.existing_offline)
     = <[Demo.target := Demo.defaults_text]> (IO.fs Demo.existing_offline)
  /\ IO.typed (IO.exec (generate "proj" None false true None)
                 Demo.existing_offline) = 0
  /\ IO.console (IO.exec (generate "proj" None false true None)
                   Demo.existing_offline)
     = [IO.Stored Demo.target].
Proof.
  split; [reflexivity|]. split; [reflexivity|].
  exact (generate_force_overwrites Demo.joinpath Demo.existing_offline
           "proj" None None Demo.old eq_refl eq_refl).
Defined.

(** The answer [n] cancels and leaves the files as they were. *)
Lemma generate_asks_before_overwrite_witness :
  IO.fs Demo.existing_offline !! Demo.target = Some Demo.old
  /\ IO.fs (IO.exec (generate "proj" None false false None)
              Demo.existing_offline)
     = IO.fs Demo.existing_offline
  /\ last (IO.console (IO.exec (generate "proj" None false false None)
                         Demo.existing_offline))
     = Some IO.Canceled.
Proof.
  split; [reflexivity|].
  refine (proj1 (proj2 (proj2 (proj2
            (generate_asks_before_overwrite Demo.joinpath
               Demo.existing_offline "proj" None None Demo.old eq_refl))))
            _).
  vm_compute. discriminate.
Defined.

(** C5 as stated fails when [generate] appends to an existing file:
    after the failed fetch the file holds its prior content and one
    more newline before the default entries. *)
Lemma generate_fetch_failure_keeps_prior :
  IO.http Demo.existing_offline (GitignoreGenerator.url ["python"])
  = IO.Raise "URLError"
  /\ IO.fs (IO.exec (generate "proj" None true false (Some ["python"]))
              Demo.existing_offline) !! Demo.target
     = Some (Demo.old +:+ Str.nl +:+ Demo.defaults_text)
  /\ IO.fs (IO.exec (generate "proj" None true false (Some ["python"]))
              Demo.existing_offline) !! Demo.target
     <> Some Demo.defaults_text
  /\ Str.splitlines (Demo.old +:+ Str.nl +:+ Demo.defaults_text)
     <> GitignoreGenerator.DEFAULT_ENTRIES.
Proof.
  repeat split; try reflexivity; vm_compute; discriminate.
Qed.

Lemma generate_fetch_failure_witness :
  ["python"] <> []
  /\ IO.http Demo.existing_offline (GitignoreGenerator.url ["python"])
     = IO.Raise "URLError"
  /\ GitignoreGenerator.fetch_template ["python"] Demo.existing_offline
     = (IO.Ok [],
        IO.set_console [IO.FetchFailed "URLError"] Demo.existing_offline)
  /\ IO.value (generate "proj" (Some ["*.aux"]) false true (Some ["python"]))
       Demo.existing_offline = IO.Ok tt.
Proof.
  split; [discriminate|]. split; [reflexivity|].
  pose proof (generate_fetch_failure Demo.joinpath Demo.existing_offline
                "proj" (Some ["*.aux"]) false true ["python"] "URLError"
                ltac:(discriminate) eq_refl) as (Hfetch & Hvalue & _).
  exact (conj Hfetch Hvalue).
Defined.

(** C6 as stated fails on a line inside the body that ends with a
    space: it is returned with its space. *)
Lemma fetch_template_keeps_inner_space :
  IO.value (GitignoreGenerator.fetch_template ["python"])
    Demo.existing_online = IO.Ok ["a "; "b"]
  /\ Str.trailing_space "a " = true
  /\ ~ Forall (fun l => Str.trailing_space l = false) ["a "; "b"].
Proof.
  split; [reflexivity|]. split; [reflexivity|].
  intros Hall. inversion Hall as [|? ? Hhead _]. discriminate Hhead.
Qed.

Lemma fetch_template_lines_witness :
  IO.http Demo.existing_online (GitignoreGenerator.url ["python"])
  = IO.Ok Demo.body
  /\ GitignoreGenerator.fetch_template ["python"] Demo.existing_online
     = (IO.Ok ["a "; "b"], Demo.existing_online)
  /\ Str.trailing_space "b" = false.
Proof.
  split; [reflexivity|].
  pose proof (fetch_template_lines ["python"] Demo.existing_online
                Demo.body eq_refl) as (Hrun & Hlast).
  exact (conj Hrun (Hlast "b" eq_refl)).
Defined.

(** C7 as stated fails on the empty string, which [main] skips
    altogether, on [a] followed by a line feed, which is split into
    lines (one entry) and not at the line feed (two entries), and on
    [[a,b]], which the comma rule cuts with its brackets. *)
Lemma normalize_claim_fails :
  Cli.data (Cli.normalize (Demo.args (Some "")))
  <> Cli.data (Demo.args (Some "")) ++ [""]
  /\ Cli.normalize (Demo.args (Some "")) = Demo.args (Some "")
  /\ Cli.data (Cli.normalize (Demo.args (Some Scenario.a_newline))) = ["a"]
  /\ Str.split "010" Scenario.a_newline = ["a"; ""]
  /\ Cli.data (Cli.normalize (Demo.args (Some Scenario.a_newline)))
     <> Str.split "010" Scenario.a_newline
  /\ Cli.data (Cli.normalize (Demo.args (Some "[a,b]"))) = ["[a"; "b]"]
  /\ Cli.data (Cli.normalize (Demo.args (Some "[a,b]"))) <> ["a"; "b"].
Proof.
  repeat split; try reflexivity; vm_compute; discriminate.
Qed.

Lemma normalize_by_priority_witness :
  Cli.entries (Demo.args (Some "src\a;b")) = Some "src\a;b"
  /\ "src\a;b" <> ""
  /\ Normalizer.bracketed_list (Str.replace "\" "/" "src\a;b") = false
  /\ Cli.data (Cli.normalize (Demo.args (Some "src\a;b")))
     = ["src/a"; "b"].
Proof.
  split; [reflexivity|]. split; [discriminate|]. split; [reflexivity|].
  exact (proj1 (proj2
           (proj2
              (normalize_by_priority (Demo.args (Some "src\a;b")) "src\a;b"
                 eq_refl)
              ltac:(discriminate) eq_refl))).
Defined.

Lemma entries_imply_append_witness :
  Cli.entries (Demo.args (Some "*.aux")) = Some "*.aux"
  /\ "*.aux" <> ""
  /\ Cli.append (Demo.args (Some "*.aux")) = false
  /\ Cli.append (Cli.normalize (Demo.args (Some "*.aux"))) = true.
Proof.
  split; [reflexivity|]. split; [discriminate|]. split; [reflexivity|].
  exact (proj1
           (entries_imply_append Demo.joinpath (Demo.args (Some "*.aux"))
              "*.aux" Demo.existing_offline eq_refl ltac:(discriminate))).
Defined.

Lemma lone_quote_blank_line_witness :
  Cli.entries (Demo.args (Some Demo.lone_quote)) = Some Demo.lone_quote
  /\ Cli.data (Cli.normalize (Demo.args (Some Demo.lone_quote))) = [""]
  /\ exists stored,
       IO.fs (IO.exec (main (Demo.args (Some Demo.lone_quote)))
                Demo.existing_offline) !! Demo.target = Some stored
       /\ stored = Demo.old +:+ Str.nl +:+ Demo.defaults_text +:+ Str.nl
       /\ Obs.ends_with_blank_line stored.
Proof.
  split; [reflexivity|].
  pose proof (lone_quote_blank_line Demo.joinpath
                (Demo.args (Some Demo.lone_quote)) "034"%char
                Demo.existing_offline (or_introl eq_refl) eq_refl)
    as (_ & _ & _ & Hdata & Hfile).
  exact (conj Hdata (Hfile eq_refl eq_refl)).
Defined.

(** On a missing file [read_gitignore] only reports it. *)
Example read_gitignore_missing :
  IO.exec (GitignoreGenerator.read_gitignore Demo.joinpath "proj")
    (Demo.world None Demo.offline "n")
  = IO.set_console [IO.NotFound Demo.target]
      (Demo.world None Demo.offline "n").
Proof. reflexivity. Qed.

(** On an existing file [read_gitignore] shows the text. *)
Example read_gitignore_existing :
  IO.exec (GitignoreGenerator.read_gitignore Demo.joinpath "proj")
    Demo.existing_offline
  = IO.set_console [IO.Content Demo.old] Demo.existing_offline.
Proof. reflexivity. Qed.

(** The answer [Y] with blanks around it lets [generate] overwrite. *)
Example generate_accepts_capital_y :
  IO.fs (IO.exec (generate "proj" None false false None)
           Demo.existing_online) !! Demo.target
  = Some Demo.defaults_text.
Proof. reflexivity. Qed.

(** A tab alone is kept as it is: the last rule. *)
Example sniff_tab :
  Cli.sniff (String "009" EmptyString) = [String "009" EmptyString].
Proof. reflexivity. Qed.

End Instances.

(** ** Further properties of [generate] and [read_gitignore] *)

Section GeneratorMore.
Context {Path : Type} `{Countable Path}.
Variable joinpath : Path -> string -> Path.

Implicit Types (w : IO.World Path) (path p : Path).
Implicit Types (templates extra : option (list string)).

Local Abbreviation generate := (GitignoreGenerator.generate joinpath).
Local Abbreviation read_gitignore :=
  (GitignoreGenerator.read_gitignore joinpath).
Local Abbreviation gitignore_of path := (joinpath path ".gitignore").

(** A run of [generate] ([exists] and [input] returning) leaves a
    world that differs from the first one in three places at most: the
    target file (kept, or given a new content), the count of lines read
    (one more exactly when [generate] has to ask) and the console
    (longer). *)
Lemma generate_shape w path extra append force templates :
  let p := gitignore_of path in
  exists f evs,
    generate path extra append force templates w
    = (IO.Ok tt,
       IO.mkWorld f (IO.write_fault w) (IO.read_fault w) (IO.http w)
         (IO.keyboard w)
         (if Obs.asks p append force w then S (IO.typed w) else IO.typed w)
         (IO.console w ++ evs))
    /\ (f = IO.fs w \/ exists text, f = <[p := text]> (IO.fs w)).
Proof.
  intros p. subst p.
  destruct (fetch_phase_run templates w) as (evs0 & _ & Ew1).
  destruct (Obs.asks (gitignore_of path) append force w) eqn:Hask;
    [destruct (Obs.affirmative (IO.keyboard w (IO.typed w))) eqn:Hans|];
    destruct (IO.write_fault w (gitignore_of path)) as [e|] eqn:Hw.
  - rewrite (generate_accepted_fault _ _ _ _ _ _ _ e) by assumption.
    rewrite Ew1. simpl. rewrite <- app_assoc. eauto.
  - rewrite generate_accepted by assumption.
    rewrite Ew1. simpl. rewrite <- app_assoc. eauto 6.
  - rewrite generate_declined by assumption.
    rewrite Ew1. simpl. rewrite <- app_assoc. eauto.
  - rewrite generate_declined by assumption.
    rewrite Ew1. simpl. rewrite <- app_assoc. eauto.
  - rewrite (generate_unasked_fault _ _ _ _ _ _ _ e) by assumption.
    rewrite Ew1. destruct w. simpl. rewrite <- app_assoc. eauto.
  - rewrite generate_unasked by assumption.
    rewrite Ew1. simpl. rewrite <- app_assoc. eauto 6.
Qed.


(** X2. When the write is reached and opening the file raises,
    [generate] reports the failure as its last message, shows no
    success message for it, and leaves every file as it was. *)
Theorem generate_write_failure_reported w path extra append force templates e :
  let p := gitignore_of path in
  let w' := IO.exec (generate path extra append force templates) w in
  Obs.proceeds p append force w = true ->
  IO.write_fault w p = Some e ->
  IO.fs w' = IO.fs w
  /\ last (IO.console w') = Some (IO.WriteFailed e)
  /\ exists evs,
       IO.console w' = IO.console (Obs.after_fetch templates w) ++ evs
       /\ IO.Stored p ∉ evs.
Proof.
  intros p w' Hgo Hw. subst p w'. unfold IO.exec, Obs.proceeds in *.
  destruct (Obs.asks (gitignore_of path) append force w) eqn:Hask.
  - simpl in Hgo.
    rewrite (generate_accepted_fault _ _ _ _ _ _ _ e) by assumption.
    simpl. rewrite last_app. simpl. split; [done|]. split; [done|].
    eexists. split; [reflexivity|].
    rewrite !elem_of_cons, elem_of_nil. intuition discriminate.
  - rewrite (generate_unasked_fault _ _ _ _ _ _ _ e) by assumption.
    simpl. rewrite last_app. simpl. split; [done|]. split; [done|].
    eexists. split; [reflexivity|].
    rewrite !elem_of_cons, elem_of_nil. intuition discriminate.
Qed.

(** X3. [generate] touches no file but its target: every other path
    holds after the call what it held before, in every run. *)
Theorem generate_touches_target_only w path extra append force templates q :
  q <> gitignore_of path ->
  IO.fs (IO.exec (generate path extra append force templates) w) !! q
  = IO.fs w !! q.
Proof.
  intros Hq.
  destruct (generate_shape w path extra append force templates)
    as (f & evs & E & [-> | (text & ->)]);
    unfold IO.exec; rewrite E; simpl; [done|].
  by rewrite lookup_insert_ne.
Qed.



(** X6. A forced overwrite is idempotent on the files as long as the
    fetch gives the same lines: run again on the files that a first
    run left, in a world whose service may be another one but returns
    the same lines (or with no template at all), it leaves every file
    as it found it. *)
Theorem generate_force_idempotent w w2 path extra templates :
  let p := gitignore_of path in
  let run := generate path extra false true templates in
  IO.write_fault w p = None ->
  IO.write_fault w2 p = None ->
  IO.fs w2 = IO.fs (IO.exec run w) ->
  Obs.fetched templates w2 = Obs.fetched templates w ->
  IO.fs (IO.exec run w2) = IO.fs w2.
Proof.
  intros p run Hw Hw2 Hfs Hfetch. subst p run. unfold IO.exec in *.
  rewrite (generate_unasked joinpath w) in Hfs
    by (try apply asks_force; done).
  cbn [snd IO.fs IO.set_console IO.set_fs] in Hfs.
  rewrite (generate_unasked joinpath w2) by (try apply asks_force; done).
  cbn [snd IO.fs IO.set_console IO.set_fs].
  rewrite Hfetch, Hfs, lookup_insert_eq, insert_insert_eq.
  unfold Obs.file_after. by destruct (IO.fs w !! gitignore_of path).
Qed.

(** X7. An append is not idempotent: run again on the files that a
    first append to a file of content [c] left, it adds a second block
    after the first, so that the file holds [c], a newline, the text
    assembled by the first run, a newline and the text assembled by
    the second run (each built from what its own fetch returned). *)
Theorem generate_append_twice w w2 path extra force templates c :
  let p := gitignore_of path in
  let run := generate path extra true force templates in
  let text x :=
    GitignoreGenerator.content_of
      (GitignoreGenerator.assemble (Obs.fetched templates x) extra) in
  IO.fs w !! p = Some c ->
  IO.write_fault w p = None ->
  IO.write_fault w2 p = None ->
  IO.fs w2 = IO.fs (IO.exec run w) ->
  IO.fs (IO.exec run w2) !! p
  = Some ((c +:+ Str.nl +:+ text w) +:+ Str.nl +:+ text w2).
Proof.
  intros p run text Hc Hw Hw2 Hfs. subst p run text. unfold IO.exec in *.
  rewrite (generate_unasked joinpath w) in Hfs
    by (try apply asks_append; done).
  cbn [snd IO.fs IO.set_console IO.set_fs] in Hfs.
  rewrite (generate_unasked joinpath w2) by (try apply asks_append; done).
  cbn [snd IO.fs IO.set_console IO.set_fs].
  rewrite lookup_insert_eq, Hfs, lookup_insert_eq, Hc. reflexivity.
Qed.

(** X8. An empty list stands for no list: [generate] sees its
    optional lists only through their elements, so [None] and the empty
    list are interchangeable for the templates and for the extra
    entries. *)
Theorem generate_empty_lists w path extra extra' append force
    templates templates' :
  default [] extra = default [] extra' ->
  default [] templates = default [] templates' ->
  generate path extra append force templates w
  = generate path extra' append force templates' w.
Proof.
  intros He Ht.
  destruct extra as [[|x l]|], extra' as [[|x' l']|]; simpl in He;
    try discriminate He;
    destruct templates as [[|t ts]|], templates' as [[|t' ts']|];
    simpl in Ht; try discriminate Ht;
    try injection He as -> ->; try injection Ht as -> ->; reflexivity.
Qed.

(** X9. [generate] reads at most one line from the keyboard, and it
    reads one exactly when the target exists and neither [force] nor
    [append] is set; the lines still to come are not changed. *)
Theorem generate_reads_one_line w path extra append force templates :
  let w' := IO.exec (generate path extra append force templates) w in
  IO.typed w'
  = (if Obs.asks (gitignore_of path) append force w
     then S (IO.typed w) else IO.typed w)
  /\ IO.keyboard w' = IO.keyboard w.
Proof.
  intros w'. subst w'.
  destruct (generate_shape w path extra append force templates)
    as (f & evs & E & _).
  unfold IO.exec. by rewrite E.
Qed.

(** [read_gitignore] on a file that is there and can be read. *)
Lemma read_existing w path c :
  IO.fs w !! gitignore_of path = Some c ->
  IO.read_fault w (gitignore_of path) = None ->
  read_gitignore path w
  = (IO.Ok tt, IO.set_console (IO.console w ++ [IO.Content c]) w).
Proof.
  intros Hc Hr. unfold GitignoreGenerator.read_gitignore, IO.bind,
    IO.exists_, IO.try_except, IO.read_text, IO.print.
  rewrite Hc. simpl. rewrite Hr, Hc. reflexivity.
Qed.

(** X11. When the file is there and reading it raises,
    [read_gitignore] reports the failure and returns normally; nothing
    else changes. *)
Theorem read_gitignore_failure_reported w path c e :
  let p := gitignore_of path in
  IO.fs w !! p = Some c ->
  IO.read_fault w p = Some e ->
  read_gitignore path w
  = (IO.Ok tt, IO.set_console (IO.console w ++ [IO.ReadFailed e]) w).
Proof.
  intros p Hc Hr. subst p. unfold GitignoreGenerator.read_gitignore, IO.bind,
    IO.exists_, IO.try_except, IO.read_text, IO.print.
  rewrite Hc. simpl. rewrite Hr. reflexivity.
Qed.

End GeneratorMore.

(** ** Lines and pieces *)

Section Lines.

Lemma push_forall (P : string -> Prop) c ls :
  (forall x, P x -> P (String c x)) -> P (String c EmptyString) ->
  Forall P ls -> Forall P (Str.push c ls).
Proof.
  intros Hcons Hone Hall. destruct Hall as [|x l Hx Hl]; simpl.
  - by constructor.
  - constructor; auto.
Qed.

(** No line of [splitlines] holds a line boundary. *)
Lemma splitlines_no_linebreak s :
  Forall (fun l => Chars.has_linebreak l = false) (Str.splitlines s).
Proof.
  induction s as [|c|c d s IHs IHds] using string_pair_ind.
  - constructor.
  - simpl. destruct (Str.islinebreak c) eqn:Ec.
    + destruct c as [[] [] [] [] [] [] [] []]; repeat constructor.
    + repeat constructor. simpl. by rewrite Ec.
  - change (Str.splitlines (String c (String d s))) with
      (if Str.islinebreak c
       then EmptyString ::
              match c, String d s with
              | "013"%char, String "010"%char s'' => Str.splitlines s''
              | _, _ => Str.splitlines (String d s)
              end
       else Str.push c (Str.splitlines (String d s))).
    destruct (Str.islinebreak c) eqn:Ec.
    + constructor; [reflexivity|].
      destruct c as [[] [] [] [] [] [] [] []]; try exact IHds.
      destruct d as [[] [] [] [] [] [] [] []]; first [exact IHds | exact IHs].
    + apply push_forall; [| |exact IHds].
      * intros x Hx. simpl. by rewrite Ec.
      * simpl. by rewrite Ec.
Qed.

(** A line without boundary, followed by a newline, is the first line
    of the whole. *)
Lemma splitlines_line x r :
  Chars.has_linebreak x = false ->
  Str.splitlines (x +:+ Str.nl +:+ r) = x :: Str.splitlines r.
Proof.
  induction x as [|c x IH]; intros Hx.
  - reflexivity.
  - simpl in Hx. apply orb_false_iff in Hx as [Hc Hx].
    rewrite append_cons.
    change (Str.splitlines (String c (x +:+ Str.nl +:+ r))) with
      (if Str.islinebreak c
       then EmptyString ::
              match c, x +:+ Str.nl +:+ r with
              | "013"%char, String "010"%char s'' => Str.splitlines s''
              | _, _ => Str.splitlines (x +:+ Str.nl +:+ r)
              end
       else Str.push c (Str.splitlines (x +:+ Str.nl +:+ r))).
    rewrite Hc, (IH Hx). reflexivity.
Qed.

(** Splitting the text of a list of entries into lines gives the
    entries back. *)
Lemma splitlines_content_of l :
  l <> [] ->
  Forall (fun x => Chars.has_linebreak x = false) l ->
  Str.splitlines (GitignoreGenerator.content_of l) = l.
Proof.
  unfold GitignoreGenerator.content_of.
  induction l as [|x l IH]; [congruence|]. intros _ Hall.
  inversion Hall as [|? ? Hx Hl]; subst.
  destruct l as [|y l].
  - simpl Str.join.
    change (x +:+ Str.nl) with (x +:+ Str.nl +:+ EmptyString).
    by rewrite splitlines_line.
  - change (Str.join Str.nl (x :: y :: l))
      with (x +:+ Str.nl +:+ Str.join Str.nl (y :: l)).
    rewrite !append_assoc, splitlines_line by assumption.
    by rewrite IH.
Qed.

Lemma defaults_no_linebreak :
  Forall (fun x => Chars.has_linebreak x = false)
    GitignoreGenerator.DEFAULT_ENTRIES.
Proof. repeat constructor. Qed.

Lemma all_space_lstrip s : Chars.all_space s = true -> Str.lstrip s = EmptyString.
Proof.
  induction s as [|c s IH]; [reflexivity|]. simpl.
  intros [Hc Hs]%andb_true_iff. rewrite Hc. auto.
Qed.

Lemma all_space_contains c s :
  Chars.all_space s = true -> Str.isspace c = false -> Str.contains c s = false.
Proof.
  intros Hs Hc. induction s as [|d s IH]; [reflexivity|]. simpl in *.
  apply andb_true_iff in Hs as [Hd Hs].
  destruct (Ascii.eqb d c) eqn:E; [|auto].
  apply Ascii.eqb_eq in E. congruence.
Qed.

Lemma all_space_split_ws s :
  Chars.all_space s = true -> Str.split_ws s = [].
Proof.
  unfold Str.split_ws. induction s as [|c s IH]; [reflexivity|]. simpl.
  intros [Hc Hs]%andb_true_iff. rewrite Hc. auto.
Qed.

Lemma replace_absent old new s :
  Str.contains old s = false -> Str.replace old new s = s.
Proof.
  induction s as [|d s IH]; [reflexivity|]. simpl.
  destruct (Ascii.eqb d old); [discriminate|]. intros Hs. by rewrite IH.
Qed.

(** Joining the pieces of a split with the separator gives the string
    back. *)
Lemma join_split c s :
  Str.join (String c EmptyString) (Str.split c s) = s.
Proof.
  induction s as [|d s IH]; [reflexivity|]. simpl.
  destruct (Ascii.eqb d c) eqn:E.
  - apply Ascii.eqb_eq in E. subst d.
    destruct (Str.split c s) as [|x l] eqn:Es.
    + destruct s; simpl in Es; [discriminate|].
      destruct (Ascii.eqb _ c); [discriminate|].
      destruct (Str.split c s); discriminate.
    + change (Str.join (String c EmptyString) (EmptyString :: x :: l))
        with (String c (Str.join (String c EmptyString) (x :: l))).
      by rewrite IH.
  - destruct (Str.split c s) as [|x l] eqn:Es.
    + destruct s; simpl in Es; [discriminate|].
      destruct (Ascii.eqb _ c); [discriminate|].
      destruct (Str.split c s); discriminate.
    + simpl Str.push. rewrite <- IH. by destruct l.
Qed.

(** *** A character absent from a string is absent from its pieces *)

Lemma absent_push c d ls :
  Ascii.eqb d c = false ->
  Forall (fun x => Str.contains c x = false) ls ->
  Forall (fun x => Str.contains c x = false) (Str.push d ls).
Proof.
  intros Hd. apply push_forall.
  - intros x Hx. simpl. by rewrite Hd.
  - simpl. by rewrite Hd.
Qed.

Lemma absent_split c sep s :
  Str.contains c s = false ->
  Forall (fun x => Str.contains c x = false) (Str.split sep s).
Proof.
  induction s as [|d s IH]; simpl.
  - by repeat constructor.
  - destruct (Ascii.eqb d c) eqn:Hd; [discriminate|]. intros Hs.
    destruct (Ascii.eqb d sep).
    + constructor; [reflexivity | auto].
    + apply absent_push; auto.
Qed.

Lemma absent_splitlines c s :
  Str.contains c s = false ->
  Forall (fun x => Str.contains c x = false) (Str.splitlines s).
Proof.
  induction s as [|d|d d' s IHs IHds] using string_pair_ind.
  - constructor.
  - simpl. destruct (Ascii.eqb d c) eqn:Hd; [discriminate|]. intros _.
    destruct (Str.islinebreak d).
    + constructor; [reflexivity|].
      clear Hd. destruct d as [[] [] [] [] [] [] [] []]; constructor.
    + constructor; [|constructor]. simpl. by rewrite Hd.
  - intros Hs.
    assert (Hd : Ascii.eqb d c = false)
      by (simpl in Hs; destruct (Ascii.eqb d c); [discriminate | reflexivity]).
    assert (Hds : Str.contains c (String d' s) = false)
      by (simpl in Hs; rewrite Hd in Hs; exact Hs).
    assert (Hs' : Str.contains c s = false)
      by (simpl in Hds; destruct (Ascii.eqb d' c); [discriminate | exact Hds]).
    change (Str.splitlines (String d (String d' s))) with
      (if Str.islinebreak d
       then EmptyString ::
              match d, String d' s with
              | "013"%char, String "010"%char s'' => Str.splitlines s''
              | _, _ => Str.splitlines (String d' s)
              end
       else Str.push d (Str.splitlines (String d' s))).
    destruct (Str.islinebreak d).
    + constructor; [reflexivity|].
      destruct d as [[] [] [] [] [] [] [] []]; try exact (IHds Hds).
      destruct d' as [[] [] [] [] [] [] [] []];
        first [exact (IHds Hds) | exact (IHs Hs')].
    + apply absent_push; auto.
Qed.

Lemma absent_append c a b :
  Str.contains c a = false -> Str.contains c b = false ->
  Str.contains c (a +:+ b) = false.
Proof.
  induction a as [|d a IH]; [auto|]. rewrite append_cons. simpl.
  destruct (Ascii.eqb d c); [discriminate | auto].
Qed.

Lemma absent_split_ws_from c s :
  Str.contains c s = false ->
  forall cur, Str.contains c cur = false ->
  Forall (fun x => Str.contains c x = false) (Str.split_ws_from cur s).
Proof.
  induction s as [|d s IH]; simpl; intros Hs cur Hcur.
  - destruct cur; by repeat constructor.
  - destruct (Ascii.eqb d c) eqn:Hd; [discriminate|].
    destruct (Str.isspace d).
    + destruct cur; [auto|]. constructor; auto.
    + apply IH; [exact Hs|]. apply absent_append; [exact Hcur|].
      simpl. by rewrite Hd.
Qed.

Lemma absent_drop_last c s :
  Str.contains c s = false -> Str.contains c (Str.drop_last s) = false.
Proof.
  induction s as [|d s IH]; [auto|]. simpl.
  destruct (Ascii.eqb d c) eqn:Hd; [discriminate|]. intros Hs.
  destruct s; [reflexivity|].
  change (Str.contains c (String d (Str.drop_last (String a s))) = false).
  simpl Str.contains at 1. rewrite Hd. auto.
Qed.

Lemma absent_slice c s :
  Str.contains c s = false -> Str.contains c (Str.slice_1_m1 s) = false.
Proof.
  destruct s as [|d s]; [auto|]. simpl.
  destruct (Ascii.eqb d c); [discriminate|]. apply absent_drop_last.
Qed.

Lemma absent_lstrip c s :
  Str.contains c s = false -> Str.contains c (Str.lstrip s) = false.
Proof.
  induction s as [|d s IH]; [auto|]. simpl.
  destruct (Ascii.eqb d c) eqn:Hd; [discriminate|]. intros Hs.
  destruct (Str.isspace d); [auto|]. simpl. by rewrite Hd.
Qed.

Lemma absent_rstrip c s :
  Str.contains c s = false -> Str.contains c (Str.rstrip s) = false.
Proof.
  induction s as [|d s IH]; [auto|]. simpl.
  destruct (Ascii.eqb d c) eqn:Hd; [discriminate|]. intros Hs.
  specialize (IH Hs). destruct (Str.rstrip s) as [|d' r].
  - destruct (Str.isspace d); [reflexivity|]. simpl. by rewrite Hd.
  - simpl Str.contains at 1. by rewrite Hd.
Qed.

Lemma absent_strip c s :
  Str.contains c s = false -> Str.contains c (Str.strip s) = false.
Proof. intros Hs. by apply absent_rstrip, absent_lstrip. Qed.

Lemma absent_replace old new s :
  Ascii.eqb new old = false ->
  Str.contains old (Str.replace old new s) = false.
Proof.
  intros Hne. induction s as [|d s IH]; [reflexivity|]. simpl.
  destruct (Ascii.eqb d old) eqn:Hd; by rewrite ?Hne, ?Hd.
Qed.

(** The entries that [main] makes of a string hold no character that
    the string does not hold. *)
Lemma absent_sniff c s :
  Str.contains c s = false ->
  Forall (fun x => Str.contains c x = false) (Cli.sniff s).
Proof.
  intros Hs. unfold Cli.sniff.
  repeat match goal with
         | |- context [if ?b then _ else _] => destruct b
         end;
    auto using absent_split, absent_splitlines, absent_slice, absent_strip;
    try (by repeat constructor; auto using absent_slice, absent_strip).
  apply absent_split_ws_from; [exact Hs | reflexivity].
Qed.

End Lines.

(** ** Further properties of the fetch, of the file written and of [main] *)

Section MainMore.
Context {Path : Type} `{Countable Path}.
Variable joinpath : Path -> string -> Path.

Implicit Types (w : IO.World Path) (args : Cli.Args Path).

Local Abbreviation generate := (GitignoreGenerator.generate joinpath).
Local Abbreviation read_gitignore :=
  (GitignoreGenerator.read_gitignore joinpath).
Local Abbreviation main := (Cli.main joinpath).
Local Abbreviation gitignore_of path := (joinpath path ".gitignore").
Local Abbreviation slashed e := (Str.replace "\" "/" e).
Local Abbreviation one_line := (fun x => Chars.has_linebreak x = false).

(** X12. [fetch_template] never raises, and each string it returns is
    one line: none holds a line boundary. *)
Theorem fetch_template_single_lines ts w :
  exists lines,
    IO.value (GitignoreGenerator.fetch_template ts) w = IO.Ok lines
    /\ Forall one_line lines.
Proof.
  unfold IO.value.
  destruct (IO.http w (GitignoreGenerator.url ts)) as [body|e] eqn:E.
  - rewrite (fetch_template_success _ _ _ E). eexists. split; [reflexivity|].
    apply splitlines_no_linebreak.
  - rewrite (fetch_template_failure _ _ _ E). eexists. split; [reflexivity|].
    constructor.
Qed.

(** X13. A response made of white space only (the empty response
    included) gives no line at all, and no message. *)
Theorem fetch_template_blank_body ts w body :
  IO.http w (GitignoreGenerator.url ts) = IO.Ok body ->
  Chars.all_space body = true ->
  GitignoreGenerator.fetch_template ts w = (IO.Ok [], w).
Proof.
  intros E Hb. rewrite (fetch_template_success _ _ _ E).
  unfold Str.strip. by rewrite all_space_lstrip.
Qed.

Lemma fetched_one_line templates w : Forall one_line (Obs.fetched templates w).
Proof.
  unfold Obs.fetched, IO.value, GitignoreGenerator.fetch_phase.
  destruct (GitignoreGenerator.truthy templates); [|constructor].
  destruct (IO.http w (GitignoreGenerator.url (default [] templates)))
    as [body|e] eqn:E.
  - rewrite (fetch_template_success _ _ _ E). apply splitlines_no_linebreak.
  - rewrite (fetch_template_failure _ _ _ E). constructor.
Qed.

(** X14. The file that [generate] creates or overwrites reads back,
    line by line, as the entries it was made of: the fetched lines,
    then the default entries, then the extra entries, as long as no
    extra entry holds a line boundary. *)
Theorem generate_lines_round_trip w path extra append force templates :
  let p := gitignore_of path in
  Obs.proceeds p append force w = true ->
  IO.write_fault w p = None ->
  append = false \/ IO.fs w !! p = None ->
  Forall one_line (default [] extra) ->
  exists text,
    IO.fs (IO.exec (generate path extra append force templates) w) !! p
    = Some text
    /\ Str.splitlines text
       = Obs.fetched templates w ++ GitignoreGenerator.DEFAULT_ENTRIES
           ++ default [] extra.
Proof.
  intros p Hgo Hw Hmode Hextra. subst p.
  rewrite generate_stores by assumption.
  rewrite lookup_insert_eq. eexists. split; [reflexivity|].
  assert (Obs.file_after (IO.fs w !! gitignore_of path) append
            (GitignoreGenerator.content_of
               (GitignoreGenerator.assemble (Obs.fetched templates w) extra))
          = GitignoreGenerator.content_of
              (GitignoreGenerator.assemble (Obs.fetched templates w) extra))
    as ->.
  { unfold Obs.file_after. destruct Hmode as [-> | ->]; [|reflexivity].
    by destruct (IO.fs w !! gitignore_of path). }
  rewrite assemble_app. apply splitlines_content_of.
  - destruct (Obs.fetched templates w); discriminate.
  - apply Forall_app. split; [apply fetched_one_line|].
    apply Forall_app. split; [apply defaults_no_linebreak | exact Hextra].
Qed.

(** [read_gitignore] returns normally and adds one message. *)
Lemma read_shape w path :
  exists ev,
    read_gitignore path w
    = (IO.Ok tt, IO.set_console (IO.console w ++ [ev]) w)
    /\ ev <> IO.Starting.
Proof.
  unfold GitignoreGenerator.read_gitignore, IO.bind, IO.exists_,
    IO.try_except, IO.read_text, IO.print.
  destruct (IO.fs w !! gitignore_of path) as [c|] eqn:Ec; simpl.
  - destruct (IO.read_fault w (gitignore_of path)) as [e|]; simpl;
      rewrite ?Ec; eexists; split; try reflexivity; discriminate.
  - eexists. split; [reflexivity | discriminate].
Qed.

Lemma normalize_keeps args :
  Cli.read (Cli.normalize args) = Cli.read args
  /\ Cli.path (Cli.normalize args) = Cli.path args
  /\ Cli.force (Cli.normalize args) = Cli.force args
  /\ Cli.template (Cli.normalize args) = Cli.template args.
Proof.
  unfold Cli.normalize. by destruct (Cli.entries args) as [[|c e]|].
Qed.

(** X15. With the read option, [main] only shows the file: whatever
    the positional argument, the templates and the other flags, it does
    what [read_gitignore] does on the given path, so it announces no
    start, writes no file and reads no line. *)
Theorem main_read_only args w :
  Cli.read args = true ->
  main args w = read_gitignore (Cli.path args) w
  /\ IO.fs (IO.exec (main args) w) = IO.fs w
  /\ IO.typed (IO.exec (main args) w) = IO.typed w
  /\ exists ev,
       IO.console (IO.exec (main args) w) = IO.console w ++ [ev]
       /\ ev <> IO.Starting.
Proof.
  intros Hr.
  destruct (normalize_keeps args) as (Hread & Hpath & _).
  assert (E : main args w = read_gitignore (Cli.path args) w).
  { unfold Cli.main. by rewrite Hread, Hr, Hpath. }
  split; [exact E|]. unfold IO.exec. rewrite E.
  destruct (read_shape w (Cli.path args)) as (ev & -> & Hev). simpl.
  split; [done|]. split; [done|]. eauto.
Qed.

(** X17. The entries made of the positional argument go last: when
    [main] writes, the text it stores lists the fetched lines, the
    default entries, the entries of the data option and then the
    entries of the positional argument, and it is appended when the
    file exists. *)
Theorem main_positional_last args e w :
  let p := gitignore_of (Cli.path args) in
  let text :=
    GitignoreGenerator.content_of
      (Obs.fetched (Cli.template args) w
         ++ GitignoreGenerator.DEFAULT_ENTRIES
         ++ Cli.data args ++ Cli.sniff (slashed e)) in
  Cli.entries args = Some e ->
  e <> EmptyString ->
  Cli.read args = false ->
  IO.write_fault w p = None ->
  IO.fs (IO.exec (main args) w) !! p
  = Some (Obs.file_after (IO.fs w !! p) true text).
Proof.
  intros p text E Hne Hr Hw. subst p text. unfold IO.exec.
  rewrite main_generates by assumption.
  rewrite (normalize_nonempty _ _ E Hne).
  cbn [Cli.path Cli.data Cli.append Cli.force Cli.template].
  pose proof (generate_stores joinpath
                (IO.set_console (IO.console w ++ [IO.Starting]) w)
                (Cli.path args)
                (Some (Cli.data args ++ Cli.sniff (slashed e)))
                true (Cli.force args) (Cli.template args)) as Hstore.
  simpl in Hstore. unfold IO.exec in Hstore. rewrite Hstore; clear Hstore.
  - rewrite lookup_insert_eq, fetched_console, assemble_app. reflexivity.
  - unfold Obs.proceeds. by rewrite asks_append.
  - exact Hw.
Qed.

(** X18. No entry made of the positional argument holds a backslash,
    and the argument itself is kept with slashes only. *)
Theorem normalize_no_backslash args e :
  Cli.entries args = Some e ->
  e <> EmptyString ->
  exists added,
    Cli.data (Cli.normalize args) = Cli.data args ++ added
    /\ Forall (fun x => Str.contains "\" x = false) added
    /\ exists e', Cli.entries (Cli.normalize args) = Some e'
                  /\ Str.contains "\" e' = false.
Proof.
  intros E Hne. rewrite (normalize_nonempty _ _ E Hne). simpl.
  exists (Cli.sniff (slashed e)). split; [reflexivity|].
  assert (Hs : Str.contains "\" (slashed e) = false)
    by (by apply absent_replace).
  split; [by apply absent_sniff|]. eauto.
Qed.

(** X19. Cutting at a separator loses nothing: when the comma rule,
    the semicolon rule, the colon rule or the pipe rule is the one that
    applies, joining the entries made with that separator gives the
    string back. *)
Theorem sniff_separator_round_trip s :
  (Str.contains "," s = true -> Str.join "," (Cli.sniff s) = s)
  /\ (Str.contains "," s = false -> Str.contains "010" s = false ->
      Str.contains ";" s = true -> Str.join ";" (Cli.sniff s) = s)
  /\ (Str.contains "," s = false -> Str.contains "010" s = false ->
      Str.contains ";" s = false ->
      Str.contains ":" s = true -> Str.join ":" (Cli.sniff s) = s)
  /\ (Str.contains "," s = false -> Str.contains "010" s = false ->
      Str.contains ";" s = false -> Str.contains ":" s = false ->
      Str.contains "|" s = true -> Str.join "|" (Cli.sniff s) = s).
Proof.
  unfold Cli.sniff.
  repeat split; repeat (let E := fresh in intros E; rewrite E);
    apply join_split.
Qed.

(** X20. A positional argument of blanks (white space only, with a
    space and no line feed in it) adds no entry at all, and still turns
    the request into an append. *)
Theorem normalize_blank args e :
  Cli.entries args = Some e ->
  Chars.all_space e = true ->
  Str.contains " " e = true ->
  Str.contains "010" e = false ->
  Cli.data (Cli.normalize args) = Cli.data args
  /\ Cli.append (Cli.normalize args) = true.
Proof.
  intros E Hb Hsp Hlf.
  assert (Hne : e <> EmptyString) by (intros ->; discriminate).
  rewrite (normalize_nonempty _ _ E Hne). simpl. split; [|reflexivity].
  rewrite (replace_absent "\" "/" e) by (by apply all_space_contains).
  unfold Cli.sniff.
  rewrite (all_space_contains "," e), Hlf, (all_space_contains ";" e),
    (all_space_contains ":" e), (all_space_contains "|" e), Hsp by done.
  rewrite all_space_split_ws by assumption. apply app_nil_r.
Qed.

Lemma one_line_no_cr x :
  Chars.has_linebreak x = false -> Str.contains "013" x = false.
Proof.
  induction x as [|d x IH]; [reflexivity|]. simpl.
  intros [Hd Hx]%orb_false_iff.
  destruct (Ascii.eqb d "013") eqn:E; [|auto].
  apply Ascii.eqb_eq in E. subst d. discriminate Hd.
Qed.

Lemma absent_join c sep l :
  Str.contains c sep = false ->
  Forall (fun x => Str.contains c x = false) l ->
  Str.contains c (Str.join sep l) = false.
Proof.
  intros Hsep. induction 1 as [|x l Hx Hl IH]; [reflexivity|].
  destruct l as [|y l]; [exact Hx|].
  change (Str.join sep (x :: y :: l))
    with (x +:+ sep +:+ Str.join sep (y :: l)).
  auto using absent_append.
Qed.

(** X10. What [generate] has stored is what [read_gitignore] then
    shows, as long as no carriage return is involved: when no extra
    entry holds one and, for an append, the prior content holds none,
    the stored text holds none either, and after a write that
    succeeded reading the same directory shows exactly that text (the
    assembled text, after the prior content and a newline when
    appended) and changes nothing else. *)
Theorem generate_then_read w path extra append force templates :
  let p := gitignore_of path in
  let text :=
    GitignoreGenerator.content_of
      (GitignoreGenerator.assemble (Obs.fetched templates w) extra) in
  let stored := Obs.file_after (IO.fs w !! p) append text in
  let w1 := IO.exec (generate path extra append force templates) w in
  Obs.proceeds p append force w = true ->
  IO.write_fault w p = None ->
  IO.read_fault w p = None ->
  Forall (fun x => Str.contains "013" x = false) (default [] extra) ->
  (forall c, IO.fs w !! p = Some c -> append = true ->
             Str.contains "013" c = false) ->
  Str.contains "013" stored = false
  /\ IO.exec (read_gitignore path) w1
     = IO.set_console (IO.console w1 ++ [IO.Content stored]) w1.
Proof.
  intros p text stored w1 Hgo Hw Hr Hextra Hprior. split.
  - assert (Htext : Str.contains "013" text = false).
    { subst text. unfold GitignoreGenerator.content_of.
      apply absent_append; [|reflexivity].
      apply absent_join; [reflexivity|]. rewrite assemble_app.
      apply Forall_app. split.
      - eapply Forall_impl; [apply fetched_one_line|].
        intros x Hx. by apply one_line_no_cr.
      - apply Forall_app. split; [|exact Hextra].
        eapply Forall_impl; [apply defaults_no_linebreak|].
        intros x Hx. by apply one_line_no_cr. }
    subst stored. unfold Obs.file_after.
    destruct (IO.fs w !! p) as [c|] eqn:Ec; [|exact Htext].
    destruct append; [|exact Htext].
    apply absent_append; [by apply (Hprior c)|].
    by apply absent_append.
  - pose proof (generate_stores joinpath w path extra append force templates
                  Hgo Hw) as Hfs.
    fold p text stored w1 in Hfs.
    assert (Hfault : IO.read_fault w1 = IO.read_fault w).
    { subst w1. unfold IO.exec.
      destruct (generate_shape joinpath w path extra append force templates)
        as (f & evs & E & _). by rewrite E. }
    unfold IO.exec at 1.
    rewrite (read_existing joinpath w1 path stored).
    + reflexivity.
    + rewrite Hfs. apply lookup_insert_eq.
    + by rewrite Hfault.
Qed.

End MainMore.

(** ** The further properties at concrete inputs *)

Section MoreInstances.

Local Abbreviation generate := (GitignoreGenerator.generate Demo.joinpath).
Local Abbreviation read_gitignore :=
  (GitignoreGenerator.read_gitignore Demo.joinpath).
Local Abbreviation main := (Cli.main Demo.joinpath).

Lemma generate_write_failure_reported_witness :
  Obs.proceeds Demo.target false true Scenario.locked = true
  /\ IO.write_fault Scenario.locked Demo.target = Some "PermissionError"
  /\ IO.fs (IO.exec (generate "proj" None false true None) Scenario.locked)
     = IO.fs Scenario.locked
  /\ last (IO.console
             (IO.exec (generate "proj" None false true None) Scenario.locked))
     = Some (IO.WriteFailed "PermissionError").
Proof.
  split; [reflexivity|]. split; [reflexivity|].
  pose proof (generate_write_failure_reported Demo.joinpath Scenario.locked
                "proj" None false true None "PermissionError"
                eq_refl eq_refl) as (Hfs & Hlast & _).
  exact (conj Hfs Hlast).
Defined.

Lemma generate_touches_target_only_witness :
  "proj/notes.txt" <> Demo.joinpath "proj" ".gitignore"
  /\ IO.fs (IO.exec (generate "proj" None false true None)
              Scenario.two_files) !! "proj/notes.txt"
     = Some "keep".
Proof.
  split; [discriminate|].
  exact (generate_touches_target_only Demo.joinpath Scenario.two_files
           "proj" None false true None "proj/notes.txt"
           ltac:(discriminate)).
Defined.


Lemma generate_force_idempotent_witness :
  IO.write_fault Demo.existing_offline Demo.target = None
  /\ IO.fs (IO.exec (generate "proj" None false true None)
              (IO.exec (generate "proj" None false true None)
                 Demo.existing_offline))
     = IO.fs (IO.exec (generate "proj" None false true None)
                Demo.existing_offline).
Proof.
  split; [reflexivity|].
  exact (generate_force_idempotent Demo.joinpath Demo.existing_offline
           (IO.exec (generate "proj" None false true None)
              Demo.existing_offline)
           "proj" None None eq_refl eq_refl eq_refl eq_refl).
Defined.

Lemma generate_append_twice_witness :
  IO.fs Demo.existing_offline !! Demo.target = Some Demo.old
  /\ IO.write_fault Demo.existing_offline Demo.target = None
  /\ IO.fs (IO.exec (generate "proj" None true false None)
              (IO.exec (generate "proj" None true false None)
                 Demo.existing_offline)) !! Demo.target
     = Some ((Demo.old +:+ Str.nl +:+ Demo.defaults_text)
               +:+ Str.nl +:+ Demo.defaults_text).
Proof.
  split; [reflexivity|]. split; [reflexivity|].
  exact (generate_append_twice Demo.joinpath Demo.existing_offline
           (IO.exec (generate "proj" None true false None)
              Demo.existing_offline)
           "proj" None false None Demo.old
           eq_refl eq_refl eq_refl eq_refl).
Defined.

Lemma generate_empty_lists_witness :
  default [] (Some []) = default [] (None : option (list string))
  /\ generate "proj" (Some []) false true (Some []) Demo.existing_offline
     = generate "proj" None false true None Demo.existing_offline.
Proof.
  split; [reflexivity|].
  exact (generate_empty_lists Demo.joinpath Demo.existing_offline "proj"
           (Some []) None false true (Some []) None eq_refl eq_refl).
Defined.

Lemma generate_then_read_witness :
  Obs.proceeds Demo.target false true Demo.existing_offline = true
  /\ IO.write_fault Demo.existing_offline Demo.target = None
  /\ IO.read_fault Demo.existing_offline Demo.target = None
  /\ Str.contains "013" Demo.defaults_text = false
  /\ IO.console
       (IO.exec (read_gitignore "proj")
          (IO.exec (generate "proj" None false true None)
             Demo.existing_offline))
     = [IO.Stored Demo.target; IO.Content Demo.defaults_text].
Proof.
  split; [reflexivity|]. split; [reflexivity|]. split; [reflexivity|].
  pose proof (generate_then_read Demo.joinpath Demo.existing_offline
                "proj" None false true None eq_refl eq_refl eq_refl
                (Forall_nil_2 _)
                ltac:(intros c _ Hfalse; discriminate Hfalse))
    as (Hcr & Hread).
  exact (conj Hcr (f_equal IO.console Hread)).
Defined.

Lemma read_gitignore_failure_reported_witness :
  IO.fs Scenario.unreadable !! Demo.target = Some Demo.old
  /\ IO.read_fault Scenario.unreadable Demo.target
     = Some "UnicodeDecodeError"
  /\ read_gitignore "proj" Scenario.unreadable
     = (IO.Ok tt,
        IO.set_console [IO.ReadFailed "UnicodeDecodeError"]
          Scenario.unreadable).
Proof.
  split; [reflexivity|]. split; [reflexivity|].
  exact (read_gitignore_failure_reported Demo.joinpath Scenario.unreadable
           "proj" Demo.old "UnicodeDecodeError" eq_refl eq_refl).
Defined.

Lemma fetch_template_blank_body_witness :
  IO.http Scenario.blank_service (GitignoreGenerator.url ["python"])
  = IO.Ok Scenario.blank_body
  /\ Chars.all_space Scenario.blank_body = true
  /\ GitignoreGenerator.fetch_template ["python"] Scenario.blank_service
     = (IO.Ok [], Scenario.blank_service).
Proof.
  split; [reflexivity|]. split; [reflexivity|].
  exact (fetch_template_blank_body ["python"] Scenario.blank_service
           Scenario.blank_body eq_refl eq_refl).
Defined.

Lemma generate_lines_round_trip_witness :
  Obs.proceeds Demo.target false true Demo.existing_online = true
  /\ IO.write_fault Demo.existing_online Demo.target = None
  /\ exists text,
       IO.fs (IO.exec (generate "proj" (Some ["*.aux"]) false true
                         (Some ["python"])) Demo.existing_online)
         !! Demo.target = Some text
       /\ Str.splitlines text
          = ["a "; "b"] ++ GitignoreGenerator.DEFAULT_ENTRIES ++ ["*.aux"].
Proof.
  split; [reflexivity|]. split; [reflexivity|].
  exact (generate_lines_round_trip Demo.joinpath Demo.existing_online
           "proj" (Some ["*.aux"]) false true (Some ["python"])
           eq_refl eq_refl (or_introl eq_refl)
           ltac:(repeat constructor)).
Defined.

Lemma main_read_only_witness :
  Cli.read Scenario.read_args = true
  /\ main Scenario.read_args Demo.existing_offline
     = read_gitignore "proj" Demo.existing_offline
  /\ IO.fs (IO.exec (main Scenario.read_args) Demo.existing_offline)
     = IO.fs Demo.existing_offline.
Proof.
  split; [reflexivity|].
  pose proof (main_read_only Demo.joinpath Scenario.read_args
                Demo.existing_offline eq_refl) as (Hmain & Hfs & _).
  exact (conj Hmain Hfs).
Defined.

Lemma main_positional_last_witness :
  Cli.entries (Scenario.data_args "b\c,d") = Some "b\c,d"
  /\ "b\c,d" <> ""
  /\ Cli.read (Scenario.data_args "b\c,d") = false
  /\ IO.write_fault Demo.existing_offline Demo.target = None
  /\ IO.fs (IO.exec (main (Scenario.data_args "b\c,d"))
              Demo.existing_offline) !! Demo.target
     = Some (Demo.old +:+ Str.nl
               +:+ GitignoreGenerator.content_of
                     (GitignoreGenerator.DEFAULT_ENTRIES
                        ++ ["*.bbl"] ++ ["b/c"; "d"])).
Proof.
  split; [reflexivity|]. split; [discriminate|]. split; [reflexivity|].
  split; [reflexivity|].
  exact (main_positional_last Demo.joinpath (Scenario.data_args "b\c,d")
           "b\c,d" Demo.existing_offline eq_refl ltac:(discriminate)
           eq_refl eq_refl).
Defined.

Lemma normalize_no_backslash_witness :
  Cli.entries (Demo.args (Some "src\a;b")) = Some "src\a;b"
  /\ "src\a;b" <> ""
  /\ exists added,
       Cli.data (Cli.normalize (Demo.args (Some "src\a;b")))
       = Cli.data (Demo.args (Some "src\a;b")) ++ added
       /\ Forall (fun x => Str.contains "\" x = false) added
       /\ exists e',
            Cli.entries (Cli.normalize (Demo.args (Some "src\a;b")))
            = Some e'
            /\ Str.contains "\" e' = false.
Proof.
  split; [reflexivity|]. split; [discriminate|].
  exact (normalize_no_backslash (Demo.args (Some "src\a;b")) "src\a;b"
           eq_refl ltac:(discriminate)).
Defined.

Lemma normalize_blank_witness :
  Cli.entries (Demo.args (Some "  ")) = Some "  "
  /\ Chars.all_space "  " = true
  /\ Cli.data (Cli.normalize (Demo.args (Some "  "))) = []
  /\ Cli.append (Cli.normalize (Demo.args (Some "  "))) = true.
Proof.
  split; [reflexivity|]. split; [reflexivity|].
  exact (normalize_blank (Demo.args (Some "  ")) "  "
           eq_refl eq_refl eq_refl eq_refl).
Defined.

End MoreInstances.
